(** * Python PEP 517 build plugin: the build-system core

    A shallow embedding of [python_517_build_plugin.py]
    (class [Python517BuildSystem]): manifest resolution
    ([_on_load_pyproject_toml]), artifact registration ([add_build]) and
    the derivation of installables ([get_builds_installable]); then the
    project file ([get_pyproject_toml]), the virtual environment
    ([get_virtual_env]), the build targets ([Python517BuildTarget]) and
    their provider ([do_get_targets_async]). *)

From Stdlib Require Import String Ascii ZArith.
From stdpp Require Import base option list strings gmap.

Local Open Scope string_scope.

(** ** Values that cross the boundary with GLib, tomli and packaging *)

(** A [GLib.Error]: message, domain (a quark string) and code. *)
Record GError := mkGError {
  message : string;
  domain : string;
  code : Z
}.

(** [GLib.quark_to_string(Gio.io_error_quark())]. *)
Definition g_io_error_quark : string := "g-io-error-quark".

(** Members of [Gio.IOErrorEnum] used below. *)
Definition IOErrorEnum_NOT_FOUND : Z := 1.
Definition IOErrorEnum_NOT_SUPPORTED : Z := 15.

(** Python exceptions that the modelled methods raise or hand to a task. *)
Inductive exception :=
| GLib_Error (err : GError)
| TOMLDecodeError (msg : string)
| UnicodeDecodeError
| AttributeError (msg : string)
| InvalidWheelFilename (filename : string)
| InvalidSdistFilename (filename : string)
| OSError (errno : Z)
| ValueError (msg : string).

(** What [tomli.loads] returns: a dict from keys to TOML values. *)
#[warnings="-register-all"]
Inductive toml_value :=
| TomlStr (s : string)
| TomlInt (z : Z)
| TomlFloat (literal : string)
| TomlBool (b : bool)
| TomlDatetime (literal : string)
| TomlArray (items : list toml_value)
| TomlDict (d : gmap string toml_value).

(** How the callback leaves its [Gio.Task]: [Task_error err] when it calls
    [task.return_error(err)], [Task_boolean b] when it calls
    [task.return_boolean(b)]. [Uncaught] is an exception that escapes the
    callback: the task is then never completed. *)
Inductive task_outcome :=
| Task_error (err : exception)
| Task_boolean (b : bool)
| Uncaught (exn : exception).

(** ** Backends *)

(** Modelled from the spec: the enumeration [BuildType] of [backends.py],
    which is not among the sources; the spec's ArtifactKind, a closed
    enumeration of TREE, EGG, WHEEL, SDIST and FILE. *)
Inductive BuildType := TREE | EGG | WHEEL | SDIST | FILE.

#[global] Instance BuildType_eq_dec : EqDecision BuildType.
Proof. solve_decision. Defined.

(** Modelled from the spec: a backend object of [backends.py] (such as
    [PypaBuildBackend]), which is not among the sources; the record holds
    what the build system asks of it: the artifact kinds it supports, the
    name of its build directory, its wheel command and whether it builds in
    isolation. *)
Record BuildBackend := mkBuildBackend {
  get_build_types : list BuildType;
  get_builddir_name : string;
  get_wheel_cmd : list string;
  has_isolation : bool
}.

(** [kind in backend.get_build_types()]. *)
Definition supports (backend : BuildBackend) (kind : BuildType) : bool :=
  bool_decide (kind ∈ get_build_types backend).

(** ** The build system object *)

(** The properties of [Python517BuildSystem]. [builds] is a Python dict: it
    keeps insertion order, so it is a list of items with distinct keys. *)
Record Python517BuildSystem := mkBuildSystem {
  workdir : string;
  backends : gmap string BuildBackend;
  frontend : string;
  build_backend : option BuildBackend;
  builds : list (string * BuildType)
}.

Definition set_build_backend (self : Python517BuildSystem)
    (b : option BuildBackend) : Python517BuildSystem :=
  mkBuildSystem (workdir self) (backends self) (frontend self) b (builds self).

Definition set_builds (self : Python517BuildSystem)
    (d : list (string * BuildType)) : Python517BuildSystem :=
  mkBuildSystem (workdir self) (backends self) (frontend self)
    (build_backend self) d.

(** ** Manifest resolution *)

Module Manifest.

(** [key in d], [isinstance(v, dict)], [isinstance(v, str)] and [d[key]] on
    the values the condition of [_on_load_pyproject_toml] reaches. An absent
    operand ([None]) stands for a subscript that an earlier disjunct has
    already ruled out. *)
Definition contains (d : option toml_value) (key : string) : bool :=
  match d with
  | Some (TomlDict m) => bool_decide (is_Some (m !! key))
  | _ => false
  end.

Definition isinstance_dict (v : option toml_value) : bool :=
  match v with Some (TomlDict _) => true | _ => false end.

Definition isinstance_str (v : option toml_value) : bool :=
  match v with Some (TomlStr _) => true | _ => false end.

Definition getitem (d : option toml_value) (key : string) : option toml_value :=
  match d with
  | Some (TomlDict m) => m !! key
  | _ => None
  end.

(** The condition under which the callback reports
    "Not a valid python PEP-517 build system". *)
Definition not_pep517 (py_project : gmap string toml_value) : bool :=
  let doc := Some (TomlDict py_project) in
  negb (contains doc "build-system")
  || negb (isinstance_dict (getitem doc "build-system"))
  || negb (contains (getitem doc "build-system") "build-backend")
  || negb (isinstance_str
             (getitem (getitem doc "build-system") "build-backend")).

(** The error built in that branch. *)
Definition NotPep517Project : GError :=
  mkGError "Not a valid python PEP-517 build system"
           g_io_error_quark IOErrorEnum_NOT_SUPPORTED.

(** [py_project["build-system"]["build-backend"]], a string once
    [not_pep517] is false. *)
Definition backend_key (py_project : gmap string toml_value) : string :=
  match getitem (getitem (Some (TomlDict py_project)) "build-system")
                "build-backend" with
  | Some (TomlStr s) => s
  | _ => ""
  end.

(** What [project_file.load_contents_finish(result)] gives: it raises a
    [GLib.Error] or returns [(ok, contents, etag)]. *)
Definition load_result : Type := GError + (bool * list Byte.byte * string).

Section Resolver.

(** [bytes.decode('utf-8')]: [None] when it raises [UnicodeDecodeError]. *)
Variable decode_utf8 : list Byte.byte -> option string.

(** [tomli.loads]: the message of the [TOMLDecodeError] it raises, or the
    parsed document. *)
Variable tomli_loads : string -> string + gmap string toml_value.

Definition _on_load_pyproject_toml (self : Python517BuildSystem)
    (result : load_result) : Python517BuildSystem * task_outcome :=
  match result with
  | inl err => (self, Task_error (GLib_Error err))
  | inr (_ok, contents, _etag) =>
      match decode_utf8 contents with
      | None => (self, Uncaught UnicodeDecodeError)
      | Some text =>
          match tomli_loads text with
          | inl msg => (self, Task_error (TOMLDecodeError msg))
          | inr py_project =>
              if not_pep517 py_project then
                (self, Task_error (GLib_Error NotPep517Project))
              else
                match backends self !! backend_key py_project with
                | Some _backend =>
                    (set_build_backend self (Some _backend), Task_boolean true)
                | None => (self, Task_boolean true)
                end
          end
      end
  end.

(** The three ways a manifest is unusable, each with the error that the
    callback hands to [task.return_error]: the file cannot be loaded, its
    content is UTF-8 text that is not TOML, or its content is UTF-8 text
    that parses to a document without a [build-system] table holding a
    string [build-backend]. Content that is not UTF-8 is none of them. *)
Inductive unusable : load_result -> exception -> Prop :=
| unusable_absent err :
    unusable (inl err) (GLib_Error err)
| unusable_not_toml ok contents etag text msg :
    decode_utf8 contents = Some text ->
    tomli_loads text = inl msg ->
    unusable (inr (ok, contents, etag)) (TOMLDecodeError msg)
| unusable_no_backend_key ok contents etag text py_project :
    decode_utf8 contents = Some text ->
    tomli_loads text = inr py_project ->
    (forall (table : gmap string toml_value) (key : string),
        py_project !! "build-system" = Some (TomlDict table) ->
        table !! "build-backend" = Some (TomlStr key) -> False) ->
    unusable (inr (ok, contents, etag)) (GLib_Error NotPep517Project).

End Resolver.

End Manifest.

Import Manifest.

(** ** Methods of Python's [str] *)

(** [s.rfind(c)]: the index of the last occurrence, [None] for -1. *)
Fixpoint rfind (c : ascii) (s : string) : option nat :=
  match s with
  | EmptyString => None
  | String a rest =>
      match rfind c rest with
      | Some i => Some (S i)
      | None => if Ascii.eqb a c then Some 0 else None
      end
  end.

(** [s.endswith(ext)]. *)
Definition endswith (s ext : string) : bool :=
  bool_decide
    (substring (String.length s - String.length ext) (String.length ext) s
     = ext)
  && Nat.leb (String.length ext) (String.length s).

(** [s.count(c)]. *)
Fixpoint count (c : ascii) (s : string) : nat :=
  match s with
  | EmptyString => 0
  | String a rest => (if Ascii.eqb a c then 1 else 0) + count c rest
  end.

(** ** Paths *)

Module Pathlib.

(** A [pathlib.Path] as the build system sees it: the directory part, the
    final component [name], and what [is_dir()] does on it. On a [mkPath] it
    returns the given boolean; on a [mkPath_raising] it raises, as it does
    for an [OSError] other than a missing file (a name that is too long, a
    directory that may not be searched). *)
Inductive Path :=
| mkPath (parent name : string) (is_dir : bool)
| mkPath_raising (parent name : string) (exn : exception).

Definition parent (file : Path) : string :=
  match file with
  | mkPath parent _ _ | mkPath_raising parent _ _ => parent
  end.

Definition name (file : Path) : string :=
  match file with
  | mkPath _ name _ | mkPath_raising _ name _ => name
  end.

(** [file.is_dir()]: the exception it raises, or the boolean it returns. *)
Definition is_dir (file : Path) : exception + bool :=
  match file with
  | mkPath _ _ is_dir => inr is_dir
  | mkPath_raising _ _ exn => inl exn
  end.

(** [is_dir()] has returned [True]. *)
Definition is_directory (file : Path) : bool :=
  match is_dir file with
  | inr true => true
  | _ => false
  end.

(** [PurePath.suffix]: with [i = name.rfind('.')], the text [name[i:]] when
    [0 < i < len(name) - 1], and the empty string otherwise. *)
Definition suffix (file : Path) : string :=
  let n := name file in
  match rfind "." n with
  | Some i =>
      if Nat.ltb 0 i && Nat.ltb i (String.length n - 1)
      then substring i (String.length n - i) n
      else ""
  | None => ""
  end.

End Pathlib.

Import Pathlib.

(** ** The artifact registry *)

(** [d[key] = value] on a dict kept in insertion order: an existing key keeps
    its place and takes the new value, a new key goes last. *)
Fixpoint dict_set {V} (d : list (string * V)) (key : string) (value : V)
    : list (string * V) :=
  match d with
  | [] => [(key, value)]
  | (k, v) :: rest =>
      if decide (k = key) then (key, value) :: rest
      else (k, v) :: dict_set rest key value
  end.

(** [d.get(key)]. *)
Fixpoint dict_get {V} (d : list (string * V)) (key : string) : option V :=
  match d with
  | [] => None
  | (k, v) :: rest => if decide (k = key) then Some v else dict_get rest key
  end.

(** [add_build]. [file.is_dir()] is the first thing evaluated, and an
    exception it raises escapes. Each condition is [test and kind in
    self.props.build_backend.get_build_types()]; the last one has no test, so
    without a backend some condition always reaches [get_build_types] on
    [None] and the call raises. *)
Definition add_build (self : Python517BuildSystem) (file : Path)
    : exception + Python517BuildSystem :=
  match is_dir file with
  | inl exn => inl exn
  | inr directory =>
      match build_backend self with
      | None =>
          inl (AttributeError
                 "'NoneType' object has no attribute 'get_build_types'")
      | Some backend =>
          let store kind :=
            set_builds self (dict_set (builds self) (name file) kind) in
          inr (if directory && supports backend TREE then store TREE
               else if bool_decide (suffix file = ".egg")
                       && supports backend EGG
               then store EGG
               else if bool_decide (suffix file = ".whl")
                       && supports backend WHEEL
               then store WHEEL
               else if bool_decide (suffix file ∈ [".gz"; ".tar"; ".zip"])
                       && supports backend SDIST
               then store SDIST
               else if supports backend FILE then store FILE
               else self)
      end
  end.

(** [clean_builds]. *)
Definition clean_builds (self : Python517BuildSystem) : Python517BuildSystem :=
  set_builds self [].

(** The order in which [add_build] tries the kinds, and the test a path has
    to pass for each. *)
Definition cascade : list BuildType := [TREE; EGG; WHEEL; SDIST; FILE].

Definition path_test (file : Path) (kind : BuildType) : bool :=
  match kind with
  | TREE => is_directory file
  | EGG => bool_decide (suffix file = ".egg")
  | WHEEL => bool_decide (suffix file = ".whl")
  | SDIST => bool_decide (suffix file ∈ [".gz"; ".tar"; ".zip"])
  | FILE => true
  end.

(** The kind of a path by its own looks: the first test it passes. *)
Definition classify (file : Path) : BuildType :=
  if is_directory file then TREE
  else if bool_decide (suffix file = ".egg") then EGG
  else if bool_decide (suffix file = ".whl") then WHEEL
  else if bool_decide (suffix file ∈ [".gz"; ".tar"; ".zip"]) then SDIST
  else FILE.

(** The kind under which a backend takes a path: the first kind of the
    cascade whose test the path passes and which the backend supports. *)
Definition accepted_kind (backend : BuildBackend) (file : Path)
    : option BuildType :=
  find (fun kind => path_test file kind && supports backend kind) cascade.

(** Registration as the specification words it. *)
Module Spec.

(** directory -> TREE; [.egg] -> EGG; [.whl] -> WHEEL;
    [.tar]/[.tar.gz]/[.zip] -> SDIST; otherwise -> FILE. *)
Definition classify (file : Path) : BuildType :=
  if is_directory file then TREE
  else if endswith (name file) ".egg" then EGG
  else if endswith (name file) ".whl" then WHEEL
  else if endswith (name file) ".tar" || endswith (name file) ".tar.gz"
          || endswith (name file) ".zip" then SDIST
  else FILE.

(** Accepted only if the backend lists the classified kind; then stored
    under the base name, overwriting a prior entry. *)
Definition register_artifact (backend : BuildBackend)
    (registry : list (string * BuildType)) (file : Path)
    : list (string * BuildType) :=
  if supports backend (classify file)
  then dict_set registry (name file) (classify file)
  else registry.

End Spec.

(** ** Installables *)

(** What [packaging.utils.parse_wheel_filename] and [parse_sdist_filename]
    give: the exception they raise, or [(name, version, build, tags)] and
    [(name, version)]. *)
Definition wheel_fields : Type := string * string * string * string.
Definition sdist_fields : Type := string * string.

(** An entry of the installable list: [(file, kind, name)]. *)
Definition installable_entry : Type := string * BuildType * string.

Section Installables.

Variable parse_wheel_filename : string -> exception + wheel_fields.
Variable parse_sdist_filename : string -> exception + sdist_fields.

(** [kind in self.props.builds.values()]. *)
Definition in_values (kind : BuildType) (d : list (string * BuildType)) : bool :=
  bool_decide (kind ∈ d.*2).

(** The [if]/[elif] chain that sets [installable]; [None] is Python's. *)
Definition installable_kind (d : list (string * BuildType))
    : option BuildType :=
  if in_values WHEEL d then Some WHEEL
  else if in_values SDIST d then Some SDIST
  else if in_values TREE d then Some TREE
  else None.

(** The [for file, kind in self.props.builds.items()] loop, threading the
    local [name] and the list [b_inst]; an exception raised by a parser ends
    the loop and the method. *)
Fixpoint collect (installable : option BuildType)
    (items : list (string * BuildType)) (name : string)
    (b_inst : list installable_entry) : exception + list installable_entry :=
  match items with
  | [] => inr b_inst
  | (file, kind) :: rest =>
      if decide (Some kind = installable) then
        match kind with
        | WHEEL =>
            match parse_wheel_filename file with
            | inl exn => inl exn
            | inr (name', _ver, _build, _tags) =>
                collect installable rest name' (b_inst ++ [(file, kind, name')])
            end
        | SDIST =>
            match parse_sdist_filename file with
            | inl exn => inl exn
            | inr (name', _ver) =>
                collect installable rest name' (b_inst ++ [(file, kind, name')])
            end
        | _ => collect installable rest name (b_inst ++ [(file, kind, name)])
        end
      else collect installable rest name b_inst
  end.

Definition get_builds_installable (self : Python517BuildSystem)
    : exception + list installable_entry :=
  collect (installable_kind (builds self)) (builds self) "Unknown"
          [(workdir self, TREE, "sources")].

(** The parser that [get_builds_installable] applies to a file of a kind. *)
Definition parse_name (kind : BuildType) (file : string)
    : exception + string :=
  match kind with
  | WHEEL =>
      match parse_wheel_filename file with
      | inl exn => inl exn
      | inr (name, _, _, _) => inr name
      end
  | SDIST =>
      match parse_sdist_filename file with
      | inl exn => inl exn
      | inr (name, _) => inr name
      end
  | _ => inr "Unknown"
  end.

(** What the specification asks of the derivation: a file of the preferred
    kind whose name does not parse is listed under the name "Unknown". *)
Definition degraded_entry (installable : option BuildType)
    (item : string * BuildType) : list installable_entry :=
  if decide (Some item.2 = installable) then
    match parse_name item.2 item.1 with
    | inl _ => [(item.1, item.2, "Unknown")]
    | inr name => [(item.1, item.2, name)]
    end
  else [].

Definition derive_installables (self : Python517BuildSystem)
    : list installable_entry :=
  (workdir self, TREE, "sources")
  :: concat (map (degraded_entry (installable_kind (builds self)))
                 (builds self)).

End Installables.

(** ** The file name checks of [packaging.utils]

    The parts of [parse_wheel_filename] and [parse_sdist_filename] that do
    not need the version and tag grammars: extension, number of parts,
    project name and build tag. The version and the tags are passed on as
    text, unvalidated, so that some names are accepted here that
    [packaging] rejects; bytes outside ASCII count as word characters.
    These are sample parsers: the properties below are stated for any
    parsers. *)
Module Packaging.

(** [s[:-n]]. *)
Definition drop_end (n : nat) (s : string) : string :=
  substring 0 (String.length s - n) s.

(** [s.split("-", maxsplit)]. *)
Fixpoint split_dash (maxsplit : nat) (s : string) : list string :=
  match maxsplit with
  | 0 => [s]
  | S m =>
      match index 0 "-" s with
      | Some i =>
          substring 0 i s
          :: split_dash m (substring (S i) (String.length s - S i) s)
      | None => [s]
      end
  end.

Definition is_separator (c : ascii) : bool :=
  Ascii.eqb c "-" || Ascii.eqb c "_" || Ascii.eqb c ".".

Definition lower (c : ascii) : ascii :=
  let n := nat_of_ascii c in
  if Nat.leb 65 n && Nat.leb n 90 then ascii_of_nat (n + 32) else c.

(** [re.sub(r"[-_.]+", "-", name).lower()]. *)
Fixpoint canonicalize_from (after_separator : bool) (s : string) : string :=
  match s with
  | EmptyString => EmptyString
  | String c rest =>
      if is_separator c then
        if after_separator then canonicalize_from true rest
        else String "-" (canonicalize_from true rest)
      else String (lower c) (canonicalize_from false rest)
  end.

Definition canonicalize_name (name : string) : string :=
  canonicalize_from false name.

Definition is_digit (c : ascii) : bool :=
  let n := nat_of_ascii c in Nat.leb 48 n && Nat.leb n 57.

(** A character of the class [[\w\d._]]. *)
Definition is_name_char (c : ascii) : bool :=
  let n := nat_of_ascii c in
  is_digit c || (Nat.leb 65 n && Nat.leb n 90) || (Nat.leb 97 n && Nat.leb n 122)
  || Ascii.eqb c "_" || Ascii.eqb c "." || Nat.leb 128 n.

Fixpoint all_chars (p : ascii -> bool) (s : string) : bool :=
  match s with
  | EmptyString => true
  | String c rest => p c && all_chars p rest
  end.

(** ["__" in s]. *)
Definition has_double_underscore (s : string) : bool :=
  bool_decide (is_Some (index 0 "__" s)).

Definition starts_with_digit (s : string) : bool :=
  match s with
  | String c _ => is_digit c
  | EmptyString => false
  end.

Definition parse_wheel_filename (filename : string)
    : exception + wheel_fields :=
  if negb (endswith filename ".whl") then
    inl (InvalidWheelFilename filename)
  else
    let stem := drop_end 4 filename in
    let dashes := count "-" stem in
    if negb (Nat.eqb dashes 4 || Nat.eqb dashes 5) then
      inl (InvalidWheelFilename filename)
    else
      match split_dash (dashes - 2) stem with
      | [name_part; version; tags] =>
          if has_double_underscore name_part
             || negb (all_chars is_name_char name_part)
          then inl (InvalidWheelFilename filename)
          else inr (canonicalize_name name_part, version, "", tags)
      | [name_part; version; build; tags] =>
          if has_double_underscore name_part
             || negb (all_chars is_name_char name_part)
          then inl (InvalidWheelFilename filename)
          else if negb (starts_with_digit build)
          then inl (InvalidWheelFilename filename)
          else inr (canonicalize_name name_part, version, build, tags)
      | _ => inl (InvalidWheelFilename filename)
      end.

Definition parse_sdist_filename (filename : string)
    : exception + sdist_fields :=
  let stem :=
    if endswith filename ".tar.gz" then Some (drop_end 7 filename)
    else if endswith filename ".zip" then Some (drop_end 4 filename)
    else None in
  match stem with
  | None => inl (InvalidSdistFilename filename)
  | Some file_stem =>
      match rfind "-" file_stem with
      | None => inl (InvalidSdistFilename filename)
      | Some i =>
          inr (canonicalize_name (substring 0 i file_stem),
               substring (S i) (String.length file_stem - S i) file_stem)
      end
  end.

End Packaging.

(** ** The project file *)

(** A [Gio.File] for a local path, as its components below the root:
    [get_basename] is the last one and [get_child] appends one. *)
Definition GFile : Type := list string.

Definition get_basename (file : GFile) : option string := last file.

Definition get_child (file : GFile) (child : string) : GFile :=
  (file ++ [child])%list.

(** [get_pyproject_toml], on the [project_file] property. *)
Definition get_pyproject_toml (project_file : GFile) : GFile :=
  if bool_decide (get_basename project_file <> Some "pyproject.toml")
  then get_child project_file "pyproject.toml"
  else project_file.

(** ** Virtual environments *)

(** The functions of [pathlib] that [get_virtual_env] and the build targets
    use: [Path(s)], [p.is_absolute()], [p / q], [p.absolute()] and
    [str(p)]; a [Path] built by them carries what [is_dir()] does on it.
    With them, what [venv.EnvBuilder(upgrade, with_pip).create(env_dir)]
    does: [None] when it returns, the exception when it raises (a
    [ValueError] when [env_dir] is an existing regular file, an [OSError]
    when it may not be written). *)
Class PathOps := {
  Path_ : string -> Path;
  is_absolute : Path -> bool;
  joinpath : Path -> Path -> Path;
  absolute : Path -> Path;
  path_str : Path -> string;
  create : bool -> bool -> Path -> option exception
}.

(** What [get_virtual_env] returns: [None], the string that
    [config.getenv] gave, or a path. *)
Inductive venv_value :=
| VenvNone
| VenvStr (s : string)
| VenvPath (p : Path).

(** What [get_virtual_env] does to the outside: lines printed, and calls of
    [venv.EnvBuilder(upgrade, with_pip).create(env_dir)], whether they
    return or raise. *)
Inductive venv_effect :=
| Print (line : string)
| EnvBuilder_create (upgrade with_pip : bool) (env_dir : Path).

(** Truth value of an [Optional[str]]: [None] and [""] are false. *)
Definition truthy (s : option string) : bool :=
  match s with
  | Some s => negb (bool_decide (s = ""))
  | None => false
  end.

Section VirtualEnv.

Context {pathlib : PathOps}.

(** The path that [get_virtual_env] works on: [Path(virtual_env) if
    virtual_env else Path(os_virtual_env)], joined to the work directory
    when it is not absolute. *)
Definition resolved_env (self : Python517BuildSystem)
    (config_getenv os_environ_get : option string) : Path :=
  let virtual_env :=
    if truthy config_getenv then Path_ (default "" config_getenv)
    else Path_ (default "" os_environ_get) in
  if negb (is_absolute virtual_env)
  then joinpath (Path_ (workdir self)) virtual_env
  else virtual_env.

(** The two branches on [virtual_env.is_dir()]: the line printed, then
    [builder.create(virtual_env)], whose exception escapes. *)
Definition build_env (line : string) (upgrade : bool) (virtual_env : Path)
    : (exception + venv_value) * list venv_effect :=
  let done :=
    [Print (line ++ path_str (absolute virtual_env));
     EnvBuilder_create upgrade true virtual_env] in
  match create upgrade true virtual_env with
  | Some exn => (inl exn, done)
  | None => (inr (VenvPath virtual_env), done)
  end.

(** [get_virtual_env]; [config_getenv] is [config.getenv("VIRTUAL_ENV")]
    and [os_environ_get] is [os.environ.get("VIRTUAL_ENV")]. The result is
    the exception that escapes or the value returned, with what was done to
    the outside until then. *)
Definition get_virtual_env (self : Python517BuildSystem)
    (config_getenv os_environ_get : option string)
    : (exception + venv_value) * list venv_effect :=
  if truthy config_getenv || truthy os_environ_get then
    let virtual_env := resolved_env self config_getenv os_environ_get in
    match is_dir virtual_env with
    | inl exn => (inl exn, [])
    | inr true => build_env "Updating venv in " true virtual_env
    | inr false => build_env "Creating venv in " false virtual_env
    end
  else
    (inr match config_getenv with
         | Some s => VenvStr s
         | None => VenvNone
         end, []).

End VirtualEnv.

(** ** Build targets *)

(** [_argv[0]] on an empty list. *)
Inductive builtin_error := IndexError (msg : string).

Module Target.

(** The properties of [Python517BuildTarget] and its [argv] attribute. *)
Record Python517BuildTarget := mkTarget {
  name : string;
  action : string;
  priority : Z;
  virtual_env : option string;
  argv : list string
}.

Section Init.

Context {pathlib : PathOps}.

(** [str(virtual_env) if virtual_env else None]: a path is always true. *)
Definition venv_property (virtual_env : venv_value) : option string :=
  match virtual_env with
  | VenvNone => None
  | VenvStr s => if bool_decide (s = "") then None else Some s
  | VenvPath p => Some (path_str p)
  end.

Definition __init__ (name action : string) (priority : Z)
    (virtual_env : venv_value) (argv : list string) : Python517BuildTarget :=
  mkTarget name action priority (venv_property virtual_env) argv.

End Init.

Definition do_get_display_name (self : Python517BuildTarget) : string :=
  name self ++ " : " ++ action self.

Definition do_get_name (self : Python517BuildTarget) : string := action self.

Definition do_get_priority (self : Python517BuildTarget) : Z := priority self.

(** [do_get_argv]: with an environment the first token is rewritten on a
    copy of [argv]. *)
Definition do_get_argv (self : Python517BuildTarget)
    : builtin_error + list string :=
  if truthy (virtual_env self) then
    match argv self with
    | [] => inl (IndexError "list index out of range")
    | first :: rest =>
        inr ((default "" (virtual_env self) ++ "/bin/" ++ first) :: rest)
    end
  else inr (argv self).

End Target.

(** ** The target provider *)

(** [Ide.BuildSystem.from_context(context)]: this build system or another. *)
Inductive build_system :=
| Python517 (bs : Python517BuildSystem)
| OtherBuildSystem.

(** How [do_get_targets_async] leaves its task: the outcome, the [targets]
    attribute ([None] while it has not been set) and what was done to the
    outside on the way. *)
Record targets_task := mkTargetsTask {
  outcome : task_outcome;
  targets : option (list Target.Python517BuildTarget);
  effects : list venv_effect
}.

Section Provider.

Context {pathlib : PathOps}.
Variable parse_wheel_filename : string -> exception + wheel_fields.
Variable parse_sdist_filename : string -> exception + sdist_fields.

(** The targets appended for one installable, the body of the loop. *)
Definition targets_of (backend : BuildBackend) (build_dir : string)
    (virtual_env : venv_value) (entry : installable_entry)
    : list Target.Python517BuildTarget :=
  let '(file, kind, name) := entry in
  ((if bool_decide (kind = SDIST) then
      [Target.__init__ name "wheel" 100
         (if has_isolation backend then VenvNone else virtual_env)
         (get_wheel_cmd backend)]
    else [])
   ++ (if bool_decide (kind ∈ [SDIST; WHEEL]) then
         [Target.__init__ name "install" 200 virtual_env
            ["python"; "-m"; "pip"; "install";
             (build_dir ++ "/" ++ file)%string];
          Target.__init__ name "uninstall" 400 virtual_env
            ["python"; "-m"; "pip"; "uninstall"; name]]
       else [])
   ++ (if bool_decide (kind ∈ [TREE]) then
         [Target.__init__ name "install editable" 200 virtual_env
            ["python"; "-m"; "pip"; "install"; "-e"; file]]
       else []))%list.

Definition NotPython517 : GError :=
  mkGError "Not a python 517 build system" g_io_error_quark
           IOErrorEnum_NOT_SUPPORTED.

(** [do_get_targets_async]. The backend is asked for its build directory
    first, then the installables are derived, then the environment is
    resolved; an exception along the way leaves the task uncompleted. *)
Definition do_get_targets_async (system : build_system)
    (config_getenv os_environ_get : option string) : targets_task :=
  match system with
  | OtherBuildSystem =>
      mkTargetsTask (Task_error (GLib_Error NotPython517)) None []
  | Python517 bs =>
      match build_backend bs with
      | None =>
          mkTargetsTask
            (Uncaught
               (AttributeError
                  "'NoneType' object has no attribute 'get_builddir_name'"))
            None []
      | Some backend =>
          let build_dir := get_builddir_name backend in
          match get_builds_installable parse_wheel_filename
                  parse_sdist_filename bs with
          | inl exn => mkTargetsTask (Uncaught exn) None []
          | inr installables =>
              match get_virtual_env bs config_getenv os_environ_get with
              | (inl exn, done) => mkTargetsTask (Uncaught exn) None done
              | (inr virtual_env, done) =>
                  mkTargetsTask (Task_boolean true)
                    (Some (flat_map
                             (targets_of backend build_dir virtual_env)
                             installables))
                    done
              end
          end
      end
  end.

End Provider.

(** ** Registering several artifacts *)

(** [add_build] called on each file in turn; the first exception ends it. *)
Fixpoint add_builds (self : Python517BuildSystem) (files : list Path)
    : exception + Python517BuildSystem :=
  match files with
  | [] => inr self
  | file :: rest =>
      match add_build self file with
      | inl exn => inl exn
      | inr self' => add_builds self' rest
      end
  end.

(** ** Sample data *)

Definition all_kinds_backend : BuildBackend :=
  mkBuildBackend [TREE; EGG; WHEEL; SDIST; FILE] "dist"
                 ["python"; "-m"; "build"; "--wheel"] true.

Definition file_only_backend : BuildBackend :=
  mkBuildBackend [FILE] "dist" [] false.

Definition sample_system (backend : option BuildBackend)
    (d : list (string * BuildType)) : Python517BuildSystem :=
  mkBuildSystem "/home/user/project"
                {["setuptools.build_meta" := all_kinds_backend]}
                "pip" backend d.

(** [bytes.decode('utf-8')] on ASCII text. *)
Definition ascii_decode (contents : list Byte.byte) : option string :=
  Some (string_of_list_byte contents).

(** [tomli.loads] on the empty document, which parses to the empty dict;
    the sample reader rejects everything else. *)
Definition empty_document_loads (text : string)
    : string + gmap string toml_value :=
  if decide (text = "") then inr ∅ else inl "Invalid statement".

(** The document [{build-system: {build-backend: key}}]. *)
Definition manifest_for (key : string) : gmap string toml_value :=
  {["build-system" := TomlDict {["build-backend" := TomlStr key]}]}.

(** A sample file system and [pathlib] on normalised POSIX paths: the one
    directory is the project's [.venv], the project's [setup.py] is a
    regular file, on which [EnvBuilder.create] raises, and the process runs
    in [/]. *)
Definition sample_is_dir (s : string) : bool :=
  bool_decide (s = "/home/user/project/.venv").

Definition sample_Path (s : string) : Path :=
  match rfind "/" s with
  | Some i =>
      mkPath (substring 0 (Nat.max i 1) s)
             (substring (S i) (String.length s - S i) s) (sample_is_dir s)
  | None => mkPath "" s (sample_is_dir s)
  end.

Definition sample_str (p : Path) : string :=
  if bool_decide (parent p = "") then name p
  else if bool_decide (parent p = "/") then "/" ++ name p
  else parent p ++ "/" ++ name p.

Definition sample_pathlib : PathOps :=
  {| Path_ := sample_Path;
     is_absolute p := String.prefix "/" (sample_str p);
     joinpath p q :=
       if String.prefix "/" (sample_str q) then q
       else sample_Path (sample_str p ++ "/" ++ sample_str q);
     absolute p :=
       if String.prefix "/" (sample_str p) then p
       else sample_Path ("/" ++ sample_str p);
     path_str := sample_str;
     create _ _ env_dir :=
       if bool_decide (sample_str env_dir = "/home/user/project/setup.py")
       then Some (ValueError "Unable to create directory")
       else None |}.

(** The text of a manifest that names [setuptools.build_meta], and
    [tomli.loads] on it. *)
Definition setuptools_manifest_text : string :=
  "[build-system]" ++ String "010" "build-backend = 'setuptools.build_meta'".

Definition sample_loads (text : string) : string + gmap string toml_value :=
  if decide (text = setuptools_manifest_text)
  then inr (manifest_for "setuptools.build_meta")
  else empty_document_loads text.

(** * Properties *)

(** ** Manifest resolution *)

Example manifest_for_is_pep517 :
  not_pep517 (manifest_for "setuptools.build_meta") = false
  /\ backend_key (manifest_for "setuptools.build_meta")
     = "setuptools.build_meta".
Proof. split; vm_compute; reflexivity. Qed.

Example build_backend_not_a_string :
  not_pep517 {["build-system" := TomlDict {["build-backend" := TomlInt 3]}]}
  = true.
Proof. vm_compute; reflexivity. Qed.

Example build_system_not_a_table :
  not_pep517 {["build-system" := TomlStr "setuptools.build_meta"]} = true.
Proof. vm_compute; reflexivity. Qed.

(** The condition in plain terms: a document passes when it has a
    [build-system] table whose [build-backend] is a string. *)
Lemma not_pep517_false (doc : gmap string toml_value) :
  not_pep517 doc = false
  <-> exists (table : gmap string toml_value) (key : string),
        doc !! "build-system" = Some (TomlDict table)
        /\ table !! "build-backend" = Some (TomlStr key).
Proof.
  unfold not_pep517, contains, isinstance_dict, isinstance_str, getitem.
  destruct (doc !! "build-system") as [v|] eqn:Hsys.
  - rewrite bool_decide_eq_true_2 by eauto. simpl.
    destruct v as [| | | | | |table];
      try (split; [discriminate | intros (t & k & Heq & _); discriminate Heq]).
    simpl. destruct (table !! "build-backend") as [w|] eqn:Hkey.
    + rewrite bool_decide_eq_true_2 by eauto. simpl.
      destruct w;
        try (split; [discriminate |
                     intros (t & k & Heq & Hk); injection Heq as <-;
                     rewrite Hkey in Hk; discriminate Hk]).
      split; [eauto | reflexivity].
    + rewrite bool_decide_eq_false_2 by (intros [? ?]; discriminate). simpl.
      split; [discriminate |].
      intros (t & k & Heq & Hk). injection Heq as <-.
      rewrite Hkey in Hk. discriminate Hk.
  - rewrite bool_decide_eq_false_2 by (intros [? ?]; discriminate). simpl.
    split; [discriminate | intros (t & k & Heq & _); discriminate Heq].
Qed.

(** A registered backend is stored and the task succeeds; an unregistered one
    leaves the backend as it was and the task succeeds all the same. *)
Lemma on_load_valid_manifest decode loads self ok contents etag text doc :
  decode contents = Some text ->
  loads text = inr doc ->
  not_pep517 doc = false ->
  _on_load_pyproject_toml decode loads self (inr (ok, contents, etag))
  = match backends self !! backend_key doc with
    | Some b => (set_build_backend self (Some b), Task_boolean true)
    | None => (self, Task_boolean true)
    end.
Proof.
  intros Hdec Hload Hpep. unfold _on_load_pyproject_toml.
  rewrite Hdec, Hload, Hpep. reflexivity.
Qed.

(** C1, as the code has it: for a manifest that cannot be loaded the
    callback hands the load's own [GLib.Error] to [task.return_error]; for
    one whose content is UTF-8 text that is not TOML it hands over tomli's
    [TOMLDecodeError]; for one whose content is UTF-8 text that parses to a
    document without a [build-system] table holding a string
    [build-backend] it hands over the "Not a valid python PEP-517 build
    system" error. In all three cases the build system, and so its
    [build_backend], is left as it was. Content that is not UTF-8 is not
    covered. *)
Theorem on_load_unusable_manifest decode loads self result err :
  unusable decode loads result err ->
  _on_load_pyproject_toml decode loads self result = (self, Task_error err)
  /\ (build_backend self = None ->
      build_backend (_on_load_pyproject_toml decode loads self result).1
      = None).
Proof.
  intros Hbad.
  assert (Hrun : _on_load_pyproject_toml decode loads self result
                 = (self, Task_error err)).
  { destruct Hbad as [e | ok contents etag text msg Hdec Hload
                        | ok contents etag text doc Hdec Hload Hlacks];
      unfold _on_load_pyproject_toml.
    - reflexivity.
    - rewrite Hdec, Hload. reflexivity.
    - assert (Hpep : not_pep517 doc = true).
      { destruct (not_pep517 doc) eqn:Htest; [reflexivity|].
        apply not_pep517_false in Htest as (table & key & Hsys & Hkey).
        contradiction (Hlacks table key Hsys Hkey). }
      rewrite Hdec, Hload, Hpep. reflexivity. }
  split; [exact Hrun | rewrite Hrun; auto].
Qed.

Lemma on_load_unusable_manifest_witness :
  _on_load_pyproject_toml ascii_decode empty_document_loads
    (sample_system None []) (inr (true, [], ""))
  = (sample_system None [], Task_error (GLib_Error NotPep517Project))
  /\ (build_backend (sample_system None []) = None ->
      build_backend
        (_on_load_pyproject_toml ascii_decode empty_document_loads
           (sample_system None []) (inr (true, [], ""))).1 = None).
Proof.
  apply (on_load_unusable_manifest ascii_decode empty_document_loads
           (sample_system None []) (inr (true, [], ""))
           (GLib_Error NotPep517Project)).
  apply (unusable_no_backend_key ascii_decode empty_document_loads
           true [] "" "" ∅); [reflexivity | reflexivity |].
  intros table key Hsys _. rewrite lookup_empty in Hsys. discriminate Hsys.
Defined.

(** C1, as stated, fails: a manifest that is absent makes the task fail with
    the error of the load, here NOT_FOUND, and not with the PEP 517 one. *)
Lemma unusable_manifest_error_differs :
  ~ (forall decode loads self result err,
        unusable decode loads result err ->
        (_on_load_pyproject_toml decode loads self result).2
        = Task_error (GLib_Error NotPep517Project)).
Proof.
  intros Hclaim.
  pose (missing := mkGError "No such file or directory" g_io_error_quark
                            IOErrorEnum_NOT_FOUND).
  specialize (Hclaim ascii_decode empty_document_loads (sample_system None [])
                (inl missing) (GLib_Error missing)
                (unusable_absent _ _ missing)).
  simpl in Hclaim. discriminate Hclaim.
Qed.

(** Text that is not TOML: the task carries the decode error. *)
Example not_toml_error :
  _on_load_pyproject_toml ascii_decode empty_document_loads
    (sample_system None []) (inr (true, [Byte.x5b], ""))
  = (sample_system None [], Task_error (TOMLDecodeError "Invalid statement")).
Proof. reflexivity. Qed.

(** ** The artifact registry *)

Section Dict.

Context {V : Type}.
Implicit Types (d : list (string * V)) (key : string) (value : V).

Lemma dict_get_set_eq d key value :
  dict_get (dict_set d key value) key = Some value.
Proof.
  induction d as [|[k v] rest IH]; simpl.
  - rewrite decide_True; reflexivity.
  - destruct (decide (k = key)) as [->|Hne]; simpl.
    + rewrite decide_True; reflexivity.
    + rewrite decide_False by exact Hne. exact IH.
Qed.

Lemma dict_get_set_ne d key other value :
  other <> key -> dict_get (dict_set d key value) other = dict_get d other.
Proof.
  intros Hother. induction d as [|[k v] rest IH]; simpl.
  - rewrite decide_False by congruence. reflexivity.
  - destruct (decide (k = key)) as [->|Hne]; simpl.
    + rewrite !decide_False by congruence. reflexivity.
    + destruct (decide (k = other)); [reflexivity | exact IH].
Qed.

(** An existing key keeps its place; a new one goes last. *)
Lemma dict_set_keys d key value :
  (dict_set d key value).*1
  = if bool_decide (key ∈ d.*1) then d.*1 else (d.*1 ++ [key])%list.
Proof.
  induction d as [|[k v] rest IH]; cbn [dict_set].
  - reflexivity.
  - destruct (decide (k = key)) as [->|Hne]; rewrite !fmap_cons; cbn [fst].
    + rewrite bool_decide_eq_true_2 by left. reflexivity.
    + rewrite IH. destruct (bool_decide (key ∈ rest.*1)) eqn:Hin.
      * apply bool_decide_eq_true_1 in Hin.
        rewrite bool_decide_eq_true_2 by (right; exact Hin). reflexivity.
      * apply bool_decide_eq_false_1 in Hin.
        rewrite bool_decide_eq_false_2; [reflexivity|].
        intros Hel. apply elem_of_cons in Hel as [Heq|Hel]; congruence.
Qed.

Lemma dict_set_NoDup d key value :
  NoDup d.*1 -> NoDup (dict_set d key value).*1.
Proof.
  intros Hnd. rewrite dict_set_keys.
  destruct (bool_decide (key ∈ d.*1)) eqn:Hin; [exact Hnd|].
  apply bool_decide_eq_false_1 in Hin.
  apply NoDup_app. split; [exact Hnd|]. split.
  - intros x Hx Hx'. apply list_elem_of_singleton in Hx'. congruence.
  - apply NoDup_singleton.
Qed.

End Dict.

(** Once [is_dir()] has returned, [is_directory] is what it returned. *)
Lemma is_directory_returned file directory :
  is_dir file = inr directory -> is_directory file = directory.
Proof.
  intros His. unfold is_directory. rewrite His.
  destruct directory; reflexivity.
Qed.

(** When [is_dir()] returns, [add_build] stores under the accepted kind, or
    does nothing. *)
Lemma add_build_accepted self backend file directory :
  build_backend self = Some backend ->
  is_dir file = inr directory ->
  add_build self file
  = inr match accepted_kind backend file with
        | Some kind =>
            set_builds self (dict_set (builds self) (name file) kind)
        | None => self
        end.
Proof.
  intros Hb His. unfold add_build, accepted_kind. rewrite His, Hb.
  cbn [find cascade path_test]. rewrite (is_directory_returned _ _ His).
  destruct (directory && supports backend TREE); [reflexivity|].
  destruct (bool_decide (suffix file = ".egg") && supports backend EGG);
    [reflexivity|].
  destruct (bool_decide (suffix file = ".whl") && supports backend WHEEL);
    [reflexivity|].
  destruct (bool_decide (suffix file ∈ [".gz"; ".tar"; ".zip"])
            && supports backend SDIST); [reflexivity|].
  cbn [andb]. destruct (supports backend FILE); reflexivity.
Qed.

(** When [is_dir()] raises, so does [add_build]. *)
Lemma add_build_is_dir_raises self file exn :
  is_dir file = inl exn -> add_build self file = inl exn.
Proof. intros His. unfold add_build. rewrite His. reflexivity. Qed.

Lemma accepted_kind_sound backend file kind :
  accepted_kind backend file = Some kind ->
  path_test file kind = true /\ supports backend kind = true.
Proof.
  unfold accepted_kind. intros Hfind.
  apply find_some in Hfind as [_ Hboth].
  apply andb_true_iff in Hboth. exact Hboth.
Qed.

Lemma classify_passes_test file : path_test file (classify file) = true.
Proof.
  unfold classify.
  destruct (is_directory file) eqn:Hd; [exact Hd|].
  destruct (bool_decide (suffix file = ".egg")) eqn:He; [exact He|].
  destruct (bool_decide (suffix file = ".whl")) eqn:Hw; [exact Hw|].
  destruct (bool_decide (suffix file ∈ [".gz"; ".tar"; ".zip"])) eqn:Hs;
    [exact Hs | reflexivity].
Qed.

(** A supported classified kind is the accepted one: no earlier kind of the
    cascade passes its test. *)
Lemma accepted_kind_classified backend file :
  supports backend (classify file) = true ->
  accepted_kind backend file = Some (classify file).
Proof.
  unfold accepted_kind, classify. simpl.
  destruct (is_directory file); simpl.
  { intros ->. reflexivity. }
  destruct (bool_decide (suffix file = ".egg")); simpl.
  { intros ->. reflexivity. }
  destruct (bool_decide (suffix file = ".whl")); simpl.
  { intros ->. reflexivity. }
  destruct (bool_decide (suffix file ∈ [".gz"; ".tar"; ".zip"])); simpl.
  { intros ->. reflexivity. }
  intros ->. reflexivity.
Qed.

(** C2, as the code has it: a path on which [is_dir()] returns is
    classified by the first test it passes: directory -> TREE, final suffix
    [.egg] -> EGG, [.whl] -> WHEEL, final suffix [.gz], [.tar] or [.zip] ->
    SDIST, otherwise FILE. When the resolved backend lists that classified
    kind as supported, [add_build] returns and has stored the path's base
    name under that kind, overwriting a prior entry of that name; the other
    entries are as they were, the names stay distinct, and nothing else of
    the build system changes. What [add_build] does with a path whose
    classified kind the backend does not list is not part of this
    statement. *)
Theorem add_build_registers self backend file directory :
  build_backend self = Some backend ->
  is_dir file = inr directory ->
  supports backend (classify file) = true ->
  classify file
  = (if directory then TREE
     else if bool_decide (suffix file = ".egg") then EGG
     else if bool_decide (suffix file = ".whl") then WHEEL
     else if bool_decide (suffix file ∈ [".gz"; ".tar"; ".zip"]) then SDIST
     else FILE)
  /\ exists self',
       add_build self file = inr self'
       /\ self' = set_builds self (builds self')
       /\ dict_get (builds self') (name file) = Some (classify file)
       /\ (forall other, other <> name file ->
             dict_get (builds self') other = dict_get (builds self) other)
       /\ (NoDup (builds self).*1 -> NoDup (builds self').*1).
Proof.
  intros Hb His Hsup. split.
  { unfold classify. rewrite (is_directory_returned _ _ His). reflexivity. }
  rewrite (add_build_accepted self backend file directory Hb His).
  rewrite (accepted_kind_classified backend file Hsup).
  eexists. split; [reflexivity|]. cbn [set_builds builds].
  split; [reflexivity|]. split; [apply dict_get_set_eq|]. split.
  - intros other Hother. apply dict_get_set_ne. exact Hother.
  - apply dict_set_NoDup.
Qed.

Lemma add_build_registers_witness :
  classify (mkPath "dist" "mypkg-1.0.tar.gz" false) = SDIST
  /\ exists self',
       add_build (sample_system (Some all_kinds_backend)
                    [("mypkg-0.9-py3-none-any.whl", WHEEL)])
                 (mkPath "dist" "mypkg-1.0.tar.gz" false) = inr self'
       /\ self'
          = set_builds (sample_system (Some all_kinds_backend)
                          [("mypkg-0.9-py3-none-any.whl", WHEEL)])
                       (builds self')
       /\ dict_get (builds self') "mypkg-1.0.tar.gz" = Some SDIST
       /\ (forall other, other <> "mypkg-1.0.tar.gz" ->
             dict_get (builds self') other
             = dict_get [("mypkg-0.9-py3-none-any.whl", WHEEL)] other)
       /\ (NoDup [("mypkg-0.9-py3-none-any.whl", WHEEL)].*1 ->
           NoDup (builds self').*1).
Proof.
  apply (add_build_registers
           (sample_system (Some all_kinds_backend)
              [("mypkg-0.9-py3-none-any.whl", WHEEL)])
           all_kinds_backend (mkPath "dist" "mypkg-1.0.tar.gz" false) false);
    reflexivity.
Defined.

(** C2, as stated, fails: [notes.gz] is no directory and ends in none of
    [.egg], [.whl], [.tar], [.tar.gz], [.zip], so the wording makes it a
    FILE; [add_build] stores it as an SDIST. *)
Lemma add_build_departs_from_register_artifact :
  ~ (forall self backend file directory,
        build_backend self = Some backend ->
        is_dir file = inr directory ->
        add_build self file
        = inr (set_builds self
                 (Spec.register_artifact backend (builds self) file))).
Proof.
  intros Hclaim.
  specialize (Hclaim (sample_system (Some all_kinds_backend) [])
                all_kinds_backend (mkPath "dist" "notes.gz" false) false
                eq_refl eq_refl).
  vm_compute in Hclaim. discriminate Hclaim.
Qed.

Example gz_is_stored_as_sdist :
  add_build (sample_system (Some all_kinds_backend) [])
            (mkPath "dist" "notes.gz" false)
  = inr (sample_system (Some all_kinds_backend) [("notes.gz", SDIST)])
  /\ Spec.classify (mkPath "dist" "notes.gz" false) = FILE.
Proof. split; reflexivity. Qed.

(** A kind the backend lacks does not end the cascade, whereas the
    docstring of [add_build] has the artifact added only if its kind is
    supported: a directory offered to a backend that lists only FILE is
    stored as a FILE, and a directory named [foo.whl] offered to one that
    lists wheels and sdists is stored as a WHEEL. *)
Example directory_stored_as_file :
  add_build (sample_system (Some file_only_backend) [])
            (mkPath "" "build" true)
  = inr (sample_system (Some file_only_backend) [("build", FILE)])
  /\ Spec.register_artifact file_only_backend [] (mkPath "" "build" true) = [].
Proof. split; reflexivity. Qed.

Example directory_stored_as_wheel :
  add_build (sample_system
               (Some (mkBuildBackend [WHEEL; SDIST] "dist" [] false)) [])
            (mkPath "" "foo.whl" true)
  = inr (sample_system
           (Some (mkBuildBackend [WHEEL; SDIST] "dist" [] false))
           [("foo.whl", WHEEL)])
  /\ classify (mkPath "" "foo.whl" true) = TREE.
Proof. split; reflexivity. Qed.

(** Without a resolved backend the call raises. *)
Example add_build_without_backend file :
  exists exn, add_build (sample_system None []) file = inl exn.
Proof. destruct file; eexists; reflexivity. Qed.

(** A name too long for the file system: [is_dir()] raises ENAMETOOLONG,
    and so does [add_build], with or without a backend. *)
Example add_build_name_too_long backend :
  add_build (sample_system backend [])
            (mkPath_raising "dist" "a-very-long-name.whl" (OSError 36))
  = inl (OSError 36).
Proof. reflexivity. Qed.

(** Whatever [add_build] stores is of a kind the backend supports. *)
Lemma add_build_supported self backend file self' kind :
  build_backend self = Some backend ->
  (forall k v, dict_get (builds self) k = Some v -> supports backend v = true) ->
  add_build self file = inr self' ->
  forall k, dict_get (builds self') k = Some kind ->
  supports backend kind = true.
Proof.
  intros Hb Hinv Hrun k Hget.
  destruct (is_dir file) as [exn|directory] eqn:His.
  { rewrite (add_build_is_dir_raises self file exn His) in Hrun.
    discriminate Hrun. }
  rewrite (add_build_accepted self backend file directory Hb His) in Hrun.
  injection Hrun as <-.
  destruct (accepted_kind backend file) as [kd|] eqn:Hacc;
    [|eapply Hinv; exact Hget].
  simpl in Hget. destruct (decide (k = name file)) as [->|Hne].
  - rewrite dict_get_set_eq in Hget. injection Hget as <-.
    apply (accepted_kind_sound _ _ _ Hacc).
  - rewrite dict_get_set_ne in Hget by exact Hne. eapply Hinv; exact Hget.
Qed.

Lemma clean_builds_idempotent self :
  clean_builds (clean_builds self) = clean_builds self
  /\ builds (clean_builds self) = [].
Proof. split; reflexivity. Qed.

(** ** Installables *)

Section InstallableFacts.

(** The two parsers of [packaging.utils], whatever they accept. *)
Variable pw : string -> exception + wheel_fields.
Variable ps : string -> exception + sdist_fields.

Implicit Types (items : list (string * BuildType)) (name file : string).
Implicit Types (b_inst result : list installable_entry).

(** Only wheels and sdists are parsed. *)
Lemma parse_name_fails_kind kind file exn :
  parse_name pw ps kind file = inl exn -> kind = WHEEL \/ kind = SDIST.
Proof. destruct kind; simpl; intros H; try discriminate H; auto. Qed.

(** The loop only appends to [b_inst]. *)
Lemma collect_extends installable items name b_inst result :
  collect pw ps installable items name b_inst = inr result ->
  exists more, result = (b_inst ++ more)%list.
Proof.
  revert name b_inst. induction items as [|[file kind] rest IH];
    intros name b_inst Hrun; simpl in Hrun.
  - injection Hrun as <-. exists []. rewrite app_nil_r. reflexivity.
  - destruct (decide (Some kind = installable)); [|eauto].
    assert (Happ : forall name',
               collect pw ps installable rest name'
                 (b_inst ++ [(file, kind, name')]) = inr result ->
               exists more, result = (b_inst ++ more)%list).
    { intros name' Hrest. apply IH in Hrest as [more ->].
      exists ((file, kind, name') :: more). rewrite <- app_assoc. reflexivity. }
    destruct kind; eauto.
    + destruct (pw file) as [exn|[[[name' ?] ?] ?]];
        [discriminate Hrun | eauto].
    + destruct (ps file) as [exn|[name' ?]];
        [discriminate Hrun | eauto].
Qed.

(** A file of the preferred kind whose name does not parse ends the loop
    with an exception, whatever came before it. *)
Lemma collect_raises kind file exn items name b_inst :
  (file, kind) ∈ items ->
  parse_name pw ps kind file = inl exn ->
  exists exn', collect pw ps (Some kind) items name b_inst = inl exn'.
Proof.
  intros Hin Hfail. revert name b_inst.
  induction items as [|[file' kind'] rest IH]; intros name b_inst.
  - apply elem_of_nil in Hin. contradiction.
  - simpl. destruct (decide (Some kind' = Some kind)) as [Heq|Hne].
    + injection Heq as ->.
      apply elem_of_cons in Hin as [Hhead|Htail].
      * injection Hhead as <-.
        destruct kind; simpl in Hfail; try discriminate Hfail.
        -- destruct (pw file) as [e|[[[? ?] ?] ?]];
             [eauto | discriminate Hfail].
        -- destruct (ps file) as [e|[? ?]];
             [eauto | discriminate Hfail].
      * specialize (IH Htail).
        destruct kind; auto.
        -- destruct (pw file') as [e|[[[? ?] ?] ?]]; eauto.
        -- destruct (ps file') as [e|[? ?]]; eauto.
    + apply elem_of_cons in Hin as [Hhead|Htail]; [congruence | auto].
Qed.

End InstallableFacts.

(** C3 on the code: when a registered wheel or sdist of the preferred kind
    has a file name that its parser rejects, [get_builds_installable] raises
    the parser's exception; it returns no list, and so not the list in which
    that file is named "Unknown". *)
Theorem get_builds_installable_raises pw ps self kind file exn :
  installable_kind (builds self) = Some kind ->
  (file, kind) ∈ builds self ->
  parse_name pw ps kind file = inl exn ->
  (exists exn', get_builds_installable pw ps self = inl exn')
  /\ get_builds_installable pw ps self <> inr (derive_installables pw ps self).
Proof.
  intros Hkind Hin Hfail.
  destruct (collect_raises pw ps kind file exn (builds self) "Unknown"
              [(workdir self, TREE, "sources")] Hin Hfail) as [exn' Hrun].
  unfold get_builds_installable. rewrite Hkind, Hrun.
  split; [exists exn'; reflexivity | discriminate].
Qed.

Lemma get_builds_installable_raises_witness :
  (exists exn',
      get_builds_installable Packaging.parse_wheel_filename
        Packaging.parse_sdist_filename
        (sample_system (Some all_kinds_backend) [("foo.whl", WHEEL)])
      = inl exn')
  /\ get_builds_installable Packaging.parse_wheel_filename
       Packaging.parse_sdist_filename
       (sample_system (Some all_kinds_backend) [("foo.whl", WHEEL)])
     <> inr (derive_installables Packaging.parse_wheel_filename
               Packaging.parse_sdist_filename
               (sample_system (Some all_kinds_backend) [("foo.whl", WHEEL)])).
Proof.
  apply (get_builds_installable_raises Packaging.parse_wheel_filename
           Packaging.parse_sdist_filename
           (sample_system (Some all_kinds_backend) [("foo.whl", WHEEL)])
           WHEEL "foo.whl" (InvalidWheelFilename "foo.whl")).
  - reflexivity.
  - apply list_elem_of_here.
  - reflexivity.
Defined.

(** The same on concrete registries: a wheel without the five parts of a
    wheel name, and a [.tar] archive, which [add_build] takes as an sdist
    and [parse_sdist_filename] never accepts. *)
Example bad_wheel_name_raises :
  get_builds_installable Packaging.parse_wheel_filename
    Packaging.parse_sdist_filename
    (sample_system (Some all_kinds_backend) [("foo.whl", WHEEL)])
  = inl (InvalidWheelFilename "foo.whl")
  /\ derive_installables Packaging.parse_wheel_filename
       Packaging.parse_sdist_filename
       (sample_system (Some all_kinds_backend) [("foo.whl", WHEEL)])
     = [("/home/user/project", TREE, "sources"); ("foo.whl", WHEEL, "Unknown")].
Proof. split; reflexivity. Qed.

Example tar_archive_raises :
  add_build (sample_system (Some all_kinds_backend) [])
            (mkPath "dist" "mypkg-1.0.tar" false)
  = inr (sample_system (Some all_kinds_backend) [("mypkg-1.0.tar", SDIST)])
  /\ get_builds_installable Packaging.parse_wheel_filename
       Packaging.parse_sdist_filename
       (sample_system (Some all_kinds_backend) [("mypkg-1.0.tar", SDIST)])
     = inl (InvalidSdistFilename "mypkg-1.0.tar").
Proof. split; reflexivity. Qed.

(** A list that is returned starts with the "sources" entry. *)
Lemma get_builds_installable_sources_first pw ps self result :
  get_builds_installable pw ps self = inr result ->
  exists more, result = (workdir self, TREE, "sources") :: more.
Proof.
  unfold get_builds_installable. intros Hrun.
  apply collect_extends in Hrun as [more ->]. exists more. reflexivity.
Qed.

(** Well-formed names: the wheel is preferred to the sdist, and the wheel's
    project name is read off its file name. *)
Example wheel_preferred :
  get_builds_installable Packaging.parse_wheel_filename
    Packaging.parse_sdist_filename
    (sample_system (Some all_kinds_backend)
       [("mypkg-1.0.tar.gz", SDIST); ("mypkg-1.0-py3-none-any.whl", WHEEL)])
  = inr [("/home/user/project", TREE, "sources");
         ("mypkg-1.0-py3-none-any.whl", WHEEL, "mypkg")].
Proof. reflexivity. Qed.

(** A registered tree is listed under the name "Unknown". *)
Example tree_named_unknown :
  get_builds_installable Packaging.parse_wheel_filename
    Packaging.parse_sdist_filename
    (sample_system (Some all_kinds_backend) [("build", TREE)])
  = inr [("/home/user/project", TREE, "sources"); ("build", TREE, "Unknown")].
Proof. reflexivity. Qed.

(** * Further properties *)

(** ** Manifest resolution *)

(** X1: a manifest that loads, decodes and parses to a document whose
    [build-system] table has the string [build-backend = key] completes the
    task with [True]; the backend registered under [key] becomes the build
    backend, and when none is registered the build system is left as it
    was, with whatever backend it had. *)
Theorem on_load_resolves decode loads self ok contents etag text doc
    (table : gmap string toml_value) (key : string) :
  decode contents = Some text ->
  loads text = inr doc ->
  doc !! "build-system" = Some (TomlDict table) ->
  table !! "build-backend" = Some (TomlStr key) ->
  _on_load_pyproject_toml decode loads self (inr (ok, contents, etag))
  = (match backends self !! key with
     | Some backend => set_build_backend self (Some backend)
     | None => self
     end, Task_boolean true).
Proof.
  intros Hdec Hload Hsys Hkey.
  assert (Hpep : not_pep517 doc = false).
  { apply not_pep517_false. exists table, key. split; assumption. }
  assert (Hbk : backend_key doc = key).
  { unfold backend_key, getitem. rewrite Hsys, Hkey. reflexivity. }
  rewrite (on_load_valid_manifest decode loads self ok contents etag text doc
             Hdec Hload Hpep), Hbk.
  destruct (backends self !! key); reflexivity.
Qed.

Lemma on_load_resolves_witness :
  _on_load_pyproject_toml ascii_decode sample_loads (sample_system None [])
    (inr (true, list_byte_of_string setuptools_manifest_text, ""))
  = (match backends (sample_system None []) !! "setuptools.build_meta" with
     | Some backend => set_build_backend (sample_system None []) (Some backend)
     | None => sample_system None []
     end, Task_boolean true).
Proof.
  apply (on_load_resolves ascii_decode sample_loads (sample_system None [])
           true (list_byte_of_string setuptools_manifest_text) ""
           setuptools_manifest_text (manifest_for "setuptools.build_meta")
           {["build-backend" := TomlStr "setuptools.build_meta"]}
           "setuptools.build_meta").
  - reflexivity.
  - reflexivity.
  - reflexivity.
  - reflexivity.
Defined.

(** X2: whatever the load gives, the callback changes nothing of the build
    system but its build backend: the registry of builds, the table of
    backends, the work directory and the front end stay. The backend
    afterwards is the one before or an entry of the table of backends; it
    changes only when the task completes with [True], and the task never
    completes with [False]. *)
Theorem on_load_frame decode loads self result :
  let after := (_on_load_pyproject_toml decode loads self result).1 in
  let outcome := (_on_load_pyproject_toml decode loads self result).2 in
  builds after = builds self
  /\ backends after = backends self
  /\ workdir after = workdir self
  /\ frontend after = frontend self
  /\ (build_backend after = build_backend self
      \/ exists key backend,
           backends self !! key = Some backend
           /\ build_backend after = Some backend)
  /\ (outcome <> Task_boolean true -> after = self)
  /\ outcome <> Task_boolean false.
Proof.
  unfold _on_load_pyproject_toml.
  destruct result as [err|[[ok contents] etag]]; simpl.
  { repeat split; auto; discriminate. }
  destruct (decode contents) as [text|]; simpl.
  2: { repeat split; auto; discriminate. }
  destruct (loads text) as [msg|doc]; simpl.
  { repeat split; auto; discriminate. }
  destruct (not_pep517 doc); simpl.
  { repeat split; auto; discriminate. }
  destruct (backends self !! backend_key doc) as [backend|] eqn:Hreg; simpl.
  - repeat split; try discriminate; try reflexivity.
    + right. exists (backend_key doc), backend. split; [exact Hreg | reflexivity].
    + intros Hne. contradiction Hne. reflexivity.
  - repeat split; auto; discriminate.
Qed.

(** ** The project file *)

(** X3: [get_pyproject_toml] always gives a file whose base name is
    [pyproject.toml]: the project file itself when it has that name, its
    child of that name otherwise; asking again gives the same file. *)
Theorem get_pyproject_toml_named (project_file : GFile) :
  get_basename (get_pyproject_toml project_file) = Some "pyproject.toml"
  /\ (get_pyproject_toml project_file = project_file
      \/ get_pyproject_toml project_file
         = get_child project_file "pyproject.toml")
  /\ get_pyproject_toml (get_pyproject_toml project_file)
     = get_pyproject_toml project_file.
Proof.
  assert (Hname : get_basename (get_pyproject_toml project_file)
                  = Some "pyproject.toml").
  { unfold get_pyproject_toml. case_bool_decide as Hne.
    - unfold get_basename, get_child. apply last_snoc.
    - destruct (decide (get_basename project_file = Some "pyproject.toml"))
        as [Heq|Hneq]; [exact Heq | contradiction]. }
  split; [exact Hname|]. split.
  - unfold get_pyproject_toml. case_bool_decide; auto.
  - unfold get_pyproject_toml at 1. rewrite Hname.
    rewrite bool_decide_eq_false_2; [reflexivity | intros Hne; contradiction].
Qed.

(** ** The artifact registry, continued *)

Lemma dict_set_idempotent {V} (d : list (string * V)) key value :
  dict_set (dict_set d key value) key value = dict_set d key value.
Proof.
  induction d as [|[k v] rest IH]; simpl.
  - rewrite decide_True; reflexivity.
  - destruct (decide (k = key)) as [->|Hne]; simpl.
    + rewrite decide_True; reflexivity.
    + rewrite decide_False by exact Hne. rewrite IH. reflexivity.
Qed.

Lemma elem_of_dict_set {V} (d : list (string * V)) key value k v :
  (k, v) ∈ dict_set d key value -> (k, v) = (key, value) \/ (k, v) ∈ d.
Proof.
  induction d as [|[k' v'] rest IH]; simpl.
  - intros Hin. apply list_elem_of_singleton in Hin. left. exact Hin.
  - destruct (decide (k' = key)) as [->|Hne]; intros Hin;
      apply elem_of_cons in Hin as [Heq|Hin].
    + left. exact Heq.
    + right. apply elem_of_cons. right. exact Hin.
    + right. apply elem_of_cons. left. exact Heq.
    + destruct (IH Hin) as [Heq|Hrest]; [left; exact Heq|].
      right. apply elem_of_cons. right. exact Hrest.
Qed.

(** X4: registering the same file a second time changes nothing. *)
Theorem add_build_idempotent self file self' :
  add_build self file = inr self' -> add_build self' file = inr self'.
Proof.
  intros Hrun. destruct (is_dir file) as [exn|directory] eqn:His.
  { rewrite (add_build_is_dir_raises self file exn His) in Hrun.
    discriminate Hrun. }
  destruct (build_backend self) as [backend|] eqn:Hb.
  2: { unfold add_build in Hrun. rewrite His, Hb in Hrun. discriminate Hrun. }
  rewrite (add_build_accepted self backend file directory Hb His) in Hrun.
  injection Hrun as <-.
  destruct (accepted_kind backend file) as [kind|] eqn:Hacc.
  - rewrite (add_build_accepted _ backend file directory) by assumption.
    rewrite Hacc. unfold set_builds. simpl.
    rewrite dict_set_idempotent. reflexivity.
  - rewrite (add_build_accepted self backend file directory Hb His), Hacc.
    reflexivity.
Qed.

Lemma add_build_idempotent_witness :
  add_build (sample_system (Some all_kinds_backend)
               [("mypkg-1.0.tar.gz", SDIST)])
            (mkPath "dist" "mypkg-1.0.tar.gz" false)
  = inr (sample_system (Some all_kinds_backend) [("mypkg-1.0.tar.gz", SDIST)]).
Proof.
  apply (add_build_idempotent (sample_system (Some all_kinds_backend) [])
           (mkPath "dist" "mypkg-1.0.tar.gz" false)).
  reflexivity.
Defined.

(** One step of the invariant that successive registrations keep. *)
Lemma add_build_keeps self backend file directory (origin : list Path) :
  build_backend self = Some backend ->
  is_dir file = inr directory ->
  NoDup (builds self).*1 ->
  (forall n kind, (n, kind) ∈ builds self ->
     supports backend kind = true
     /\ exists f, f ∈ origin /\ name f = n /\ path_test f kind = true) ->
  exists self',
    add_build self file = inr self'
    /\ build_backend self' = Some backend
    /\ NoDup (builds self').*1
    /\ (forall n kind, (n, kind) ∈ builds self' ->
          supports backend kind = true
          /\ exists f, f ∈ file :: origin /\ name f = n
                       /\ path_test f kind = true).
Proof.
  intros Hb His Hnd Hinv.
  rewrite (add_build_accepted self backend file directory Hb His).
  eexists. split; [reflexivity|].
  destruct (accepted_kind backend file) as [kind|] eqn:Hacc; simpl.
  - destruct (accepted_kind_sound _ _ _ Hacc) as [Htest Hsup].
    split; [exact Hb|]. split; [apply dict_set_NoDup; exact Hnd|].
    intros n k Hin. apply elem_of_dict_set in Hin as [Heq|Hin].
    + injection Heq as -> ->. split; [exact Hsup|].
      exists file. split; [apply elem_of_cons; left; reflexivity|].
      split; [reflexivity | exact Htest].
    + destruct (Hinv n k Hin) as [Hs (f & Hf & Hn & Ht)].
      split; [exact Hs|]. exists f.
      split; [apply elem_of_cons; right; exact Hf | split; assumption].
  - split; [exact Hb|]. split; [exact Hnd|].
    intros n k Hin. destruct (Hinv n k Hin) as [Hs (f & Hf & Hn & Ht)].
    split; [exact Hs|]. exists f.
    split; [apply elem_of_cons; right; exact Hf | split; assumption].
Qed.

Lemma add_builds_keeps self backend files (origin : list Path) :
  build_backend self = Some backend ->
  (forall f, f ∈ files -> exists directory, is_dir f = inr directory) ->
  NoDup (builds self).*1 ->
  (forall n kind, (n, kind) ∈ builds self ->
     supports backend kind = true
     /\ exists f, f ∈ origin /\ name f = n /\ path_test f kind = true) ->
  exists self',
    add_builds self files = inr self'
    /\ build_backend self' = Some backend
    /\ NoDup (builds self').*1
    /\ (forall n kind, (n, kind) ∈ builds self' ->
          supports backend kind = true
          /\ exists f, f ∈ (files ++ origin)%list /\ name f = n
                       /\ path_test f kind = true).
Proof.
  revert self origin. induction files as [|file rest IH];
    intros self origin Hb Hret Hnd Hinv.
  - exists self. simpl. split; [reflexivity|]. split; [exact Hb|].
    split; [exact Hnd | exact Hinv].
  - destruct (Hret file) as [directory His];
      [apply elem_of_cons; left; reflexivity|].
    assert (Hret' : forall f, f ∈ rest ->
                      exists directory, is_dir f = inr directory).
    { intros f Hf. apply Hret. apply elem_of_cons. right. exact Hf. }
    destruct (add_build_keeps self backend file directory origin
                Hb His Hnd Hinv)
      as (self1 & Hrun & Hb1 & Hnd1 & Hinv1).
    destruct (IH self1 (file :: origin) Hb1 Hret' Hnd1 Hinv1)
      as (self' & Hruns & Hb' & Hnd' & Hinv').
    exists self'. simpl. rewrite Hrun. split; [exact Hruns|].
    split; [exact Hb'|]. split; [exact Hnd'|].
    intros n k Hin. destruct (Hinv' n k Hin) as [Hs (f & Hf & Hn & Ht)].
    split; [exact Hs|]. exists f. split; [|split; assumption].
    apply elem_of_app in Hf as [Hf|Hf].
    + apply elem_of_cons. right. apply elem_of_app. left. exact Hf.
    + apply elem_of_cons in Hf as [->|Hf]; apply elem_of_cons.
      * left. reflexivity.
      * right. apply elem_of_app. right. exact Hf.
Qed.

(** X5: with a resolved backend, registering on a cleaned registry, one
    after the other, any files on each of which [is_dir()] returns does not
    raise and leaves the backend in place; the names registered are
    distinct, and every entry has a kind that the backend supports and is
    the base name of one of the files, which passes the test of that
    kind. *)
Theorem add_builds_invariant self backend files :
  build_backend self = Some backend ->
  (forall f, f ∈ files -> exists directory, is_dir f = inr directory) ->
  exists self',
    add_builds (clean_builds self) files = inr self'
    /\ build_backend self' = Some backend
    /\ NoDup (builds self').*1
    /\ (forall n kind, (n, kind) ∈ builds self' ->
          supports backend kind = true
          /\ exists f, f ∈ files /\ name f = n /\ path_test f kind = true).
Proof.
  intros Hb Hret.
  destruct (add_builds_keeps (clean_builds self) backend files [])
    as (self' & Hrun & Hb' & Hnd & Hinv).
  - exact Hb.
  - exact Hret.
  - simpl. apply NoDup_nil_2.
  - simpl. intros n k Hin. apply elem_of_nil in Hin. contradiction.
  - exists self'. split; [exact Hrun|]. split; [exact Hb'|].
    split; [exact Hnd|]. intros n k Hin.
    destruct (Hinv n k Hin) as [Hs (f & Hf & Hn & Ht)].
    rewrite app_nil_r in Hf. split; [exact Hs|].
    exists f. split; [exact Hf | split; assumption].
Qed.

Lemma add_builds_invariant_witness :
  exists self',
    add_builds (clean_builds
                  (sample_system (Some file_only_backend) [("old", FILE)]))
               [mkPath "dist" "mypkg-1.0.tar.gz" false;
                mkPath "" "build" true] = inr self'
    /\ build_backend self' = Some file_only_backend
    /\ NoDup (builds self').*1
    /\ (forall n kind, (n, kind) ∈ builds self' ->
          supports file_only_backend kind = true
          /\ exists f, f ∈ [mkPath "dist" "mypkg-1.0.tar.gz" false;
                            mkPath "" "build" true]
                       /\ name f = n /\ path_test f kind = true).
Proof.
  apply (add_builds_invariant
           (sample_system (Some file_only_backend) [("old", FILE)])
           file_only_backend
           [mkPath "dist" "mypkg-1.0.tar.gz" false; mkPath "" "build" true]).
  - reflexivity.
  - intros f Hf. apply elem_of_cons in Hf as [->|Hf];
      [exists false; reflexivity|].
    apply elem_of_cons in Hf as [->|Hf]; [exists true; reflexivity|].
    apply elem_of_nil in Hf. contradiction.
Defined.

(** ** Suffixes *)

Lemma string_app_cons (c : ascii) (a b : string) :
  String c a ++ b = String c (a ++ b).
Proof. reflexivity. Qed.

Lemma string_app_nil (b : string) : "" ++ b = b.
Proof. reflexivity. Qed.

Lemma string_length_app (a b : string) :
  String.length (a ++ b) = String.length a + String.length b.
Proof.
  induction a as [|c a IH].
  - rewrite string_app_nil. reflexivity.
  - rewrite string_app_cons. cbn [String.length]. rewrite IH. reflexivity.
Qed.

Lemma substring_whole (s : string) : substring 0 (String.length s) s = s.
Proof.
  induction s as [|c s IH]; cbn [String.length substring];
    [reflexivity | rewrite IH; reflexivity].
Qed.

Lemma substring_skip (a b : string) (n : nat) :
  substring (String.length a) n (a ++ b) = substring 0 n b.
Proof.
  induction a as [|c a IH].
  - rewrite string_app_nil. reflexivity.
  - rewrite string_app_cons. cbn [String.length substring]. exact IH.
Qed.

(** The last occurrence in a concatenation is the last one of the second
    part, when there is one. *)
Lemma rfind_app (c : ascii) (a b : string) (i : nat) :
  rfind c b = Some i -> rfind c (a ++ b) = Some (String.length a + i).
Proof.
  intros Hb. induction a as [|x a IH].
  - rewrite string_app_nil. exact Hb.
  - rewrite string_app_cons. cbn [rfind String.length]. rewrite IH.
    reflexivity.
Qed.

(** A name [stem.ext], with a stem and an extension that has no dot, has
    the suffix [.ext]. *)
Lemma suffix_of_extension (dir stem ext : string) (d : bool) :
  stem <> "" -> ext <> "" -> rfind "." ext = None ->
  suffix (mkPath dir (stem ++ "." ++ ext) d) = "." ++ ext.
Proof.
  intros Hstem Hext Hnodot. unfold suffix. cbn [name].
  assert (Hlast : rfind "." ("." ++ ext) = Some 0).
  { change (rfind "." (String "." ext) = Some 0).
    cbn [rfind]. rewrite Hnodot. reflexivity. }
  rewrite (rfind_app "." stem ("." ++ ext) 0 Hlast).
  rewrite string_length_app. rewrite Nat.add_0_r.
  assert (Hs : 0 < String.length stem).
  { destruct stem; [contradiction | simpl; lia]. }
  assert (He : 0 < String.length ext).
  { destruct ext; [contradiction | simpl; lia]. }
  assert (Hlen : String.length ("." ++ ext) = S (String.length ext))
    by reflexivity.
  rewrite Hlen.
  replace (Nat.ltb 0 (String.length stem)) with true
    by (symmetry; apply Nat.ltb_lt; exact Hs).
  replace (Nat.ltb (String.length stem)
             (String.length stem + S (String.length ext) - 1)) with true
    by (symmetry; apply Nat.ltb_lt; lia).
  simpl andb. cbv iota.
  rewrite substring_skip.
  replace (String.length stem + S (String.length ext) - String.length stem)
    with (String.length ("." ++ ext)) by (rewrite Hlen; lia).
  apply substring_whole.
Qed.

(** X6: a file that is no directory and is named [stem.ext], with a
    non-empty stem, is classified by its extension: [egg] -> EGG, [whl] ->
    WHEEL, [gz], [tar] and [zip] -> SDIST (so [stem.tar.gz] is an SDIST);
    when the backend supports that kind, [add_build] stores the name under
    it. *)
Theorem add_build_by_extension self backend dir stem ext kind :
  build_backend self = Some backend ->
  stem <> "" ->
  (ext, kind) ∈ [("egg", EGG); ("whl", WHEEL); ("gz", SDIST);
                 ("tar", SDIST); ("zip", SDIST)] ->
  supports backend kind = true ->
  classify (mkPath dir (stem ++ "." ++ ext) false) = kind
  /\ exists self',
       add_build self (mkPath dir (stem ++ "." ++ ext) false) = inr self'
       /\ dict_get (builds self') (stem ++ "." ++ ext) = Some kind.
Proof.
  intros Hb Hstem Hext Hsup.
  assert (Hcls : classify (mkPath dir (stem ++ "." ++ ext) false) = kind).
  { unfold classify. cbn [is_dir].
    repeat (apply elem_of_cons in Hext as [Heq|Hext];
            [injection Heq as -> ->;
             rewrite (suffix_of_extension dir stem _ false Hstem)
               by (try discriminate; reflexivity);
             reflexivity|]).
    apply elem_of_nil in Hext. contradiction. }
  split; [exact Hcls|].
  rewrite (add_build_accepted self backend
             (mkPath dir (stem ++ "." ++ ext) false) false Hb eq_refl).
  rewrite accepted_kind_classified by (rewrite Hcls; exact Hsup).
  rewrite Hcls. eexists. split; [reflexivity|]. simpl.
  apply dict_get_set_eq.
Qed.

Lemma add_build_by_extension_witness :
  classify (mkPath "dist" ("mypkg-1.0.tar" ++ "." ++ "gz") false) = SDIST
  /\ exists self',
       add_build (sample_system (Some all_kinds_backend) [])
                 (mkPath "dist" ("mypkg-1.0.tar" ++ "." ++ "gz") false)
       = inr self'
       /\ dict_get (builds self') ("mypkg-1.0.tar" ++ "." ++ "gz")
          = Some SDIST.
Proof.
  apply (add_build_by_extension (sample_system (Some all_kinds_backend) [])
           all_kinds_backend "dist" "mypkg-1.0.tar" "gz" SDIST).
  - reflexivity.
  - discriminate.
  - apply elem_of_cons. right. apply elem_of_cons. right.
    apply elem_of_cons. left. reflexivity.
  - reflexivity.
Defined.

(** A name without a dot has no last dot. *)
Lemma rfind_none_of_count (c : ascii) (s : string) :
  count c s = 0 -> rfind c s = None.
Proof.
  induction s as [|a rest IH]; cbn [count rfind]; [reflexivity|].
  destruct (Ascii.eqb a c); [discriminate|].
  intros Hrest. rewrite (IH Hrest). reflexivity.
Qed.

(** Names that [pathlib] gives no suffix: those without a dot, those of
    hidden files without a further dot, and those that end in a dot. *)
Lemma suffix_empty (dir n : string) (d : bool) :
  count "." n = 0
  \/ (exists ext, n = "." ++ ext /\ count "." ext = 0)
  \/ (exists stem, n = stem ++ ".") ->
  suffix (mkPath dir n d) = "".
Proof.
  unfold suffix. cbn [name].
  intros [Hnone|[(ext & -> & Hnone)|(stem & ->)]].
  - rewrite (rfind_none_of_count _ _ Hnone). reflexivity.
  - change (rfind "." ("." ++ ext)) with (rfind "." (String "." ext)).
    cbn [rfind]. rewrite (rfind_none_of_count _ _ Hnone). reflexivity.
  - rewrite (rfind_app "." stem "." 0 eq_refl), string_length_app.
    cbn [String.length].
    replace (Nat.ltb (String.length stem + 0) (String.length stem + 1 - 1))
      with false by (symmetry; apply Nat.ltb_ge; lia).
    rewrite andb_false_r. reflexivity.
Qed.

(** X7: a file that is no directory and whose name has no dot, or is a dot
    followed by text without a dot (a hidden file such as [.whl] or
    [.egg]), or ends in a dot, is never registered as an egg, a wheel or an
    sdist, whatever the backend supports: [add_build] stores it as a FILE
    when the backend supports FILE and leaves the registry as it is when it
    does not. *)
Theorem add_build_without_suffix self backend dir n :
  build_backend self = Some backend ->
  count "." n = 0
  \/ (exists ext, n = "." ++ ext /\ count "." ext = 0)
  \/ (exists stem, n = stem ++ ".") ->
  add_build self (mkPath dir n false)
  = inr (if supports backend FILE
         then set_builds self (dict_set (builds self) n FILE)
         else self).
Proof.
  intros Hb Hshape. unfold add_build. cbn [is_dir name]. rewrite Hb.
  rewrite (suffix_empty dir n false Hshape). cbn [andb].
  destruct (supports backend FILE); reflexivity.
Qed.

Lemma add_build_without_suffix_witness :
  add_build (sample_system (Some all_kinds_backend) []) (mkPath "dist" ".whl" false)
  = inr (if supports all_kinds_backend FILE
         then set_builds (sample_system (Some all_kinds_backend) [])
                (dict_set (builds (sample_system (Some all_kinds_backend) []))
                   ".whl" FILE)
         else sample_system (Some all_kinds_backend) []).
Proof.
  apply (add_build_without_suffix (sample_system (Some all_kinds_backend) [])
           all_kinds_backend "dist" ".whl").
  - reflexivity.
  - right. left. exists "whl". split; reflexivity.
Defined.

(** ** Installables, continued *)

Section InstallableLists.

(** The two parsers of [packaging.utils], whatever they accept. *)
Variable pw : string -> exception + wheel_fields.
Variable ps : string -> exception + sdist_fields.

Implicit Types (items : list (string * BuildType)) (name file : string).
Implicit Types (b_inst result : list installable_entry).

(** Without a preferred kind the loop appends nothing and parses nothing. *)
Lemma collect_none items name b_inst :
  collect pw ps None items name b_inst = inr b_inst.
Proof.
  induction items as [|[file kind] rest IH]; cbn [collect]; [reflexivity|].
  destruct (decide (Some kind = None)) as [Heq|_]; [discriminate Heq|].
  exact IH.
Qed.

(** When the entries of the preferred kind parse, the loop appends them in
    order, each under its parsed name. *)
Lemma collect_all_parse installable items name b_inst :
  (forall file kind, (file, kind) ∈ items -> Some kind = installable ->
     exists n, parse_name pw ps kind file = inr n) ->
  (installable <> Some WHEEL -> installable <> Some SDIST ->
   name = "Unknown") ->
  collect pw ps installable items name b_inst
  = inr (b_inst ++ concat (map (degraded_entry pw ps installable) items))%list.
Proof.
  revert name b_inst.
  induction items as [|[file kind] rest IH]; intros name b_inst Hparse Hname.
  - simpl. rewrite app_nil_r. reflexivity.
  - assert (Hrest : forall f k, (f, k) ∈ rest -> Some k = installable ->
                      exists n, parse_name pw ps k f = inr n).
    { intros f k Hin. apply Hparse. apply elem_of_cons. right. exact Hin. }
    cbn [collect map concat]. unfold degraded_entry at 1. cbn [fst snd].
    destruct (decide (Some kind = installable)) as [Heq|Hne].
    2: { cbn [app]. apply IH; assumption. }
    destruct (Hparse file kind) as [n Hn];
      [apply elem_of_cons; left; reflexivity | exact Heq |].
    rewrite Hn. subst installable.
    destruct kind; simpl in Hn.
    + injection Hn as <-. rewrite Hname by discriminate.
      rewrite IH by (assumption || (intros; reflexivity)).
      rewrite <- app_assoc. reflexivity.
    + injection Hn as <-. rewrite Hname by discriminate.
      rewrite IH by (assumption || (intros; reflexivity)).
      rewrite <- app_assoc. reflexivity.
    + destruct (pw file) as [exn|[[[n' ver] build] tags]];
        [discriminate Hn|]. injection Hn as <-.
      rewrite IH by (assumption || (intros Hw; contradiction Hw; reflexivity)).
      rewrite <- app_assoc. reflexivity.
    + destruct (ps file) as [exn|[n' ver]]; [discriminate Hn|].
      injection Hn as <-.
      rewrite IH by (assumption
                     || (intros _ Hs; contradiction Hs; reflexivity)).
      rewrite <- app_assoc. reflexivity.
    + injection Hn as <-. rewrite Hname by discriminate.
      rewrite IH by (assumption || (intros; reflexivity)).
      rewrite <- app_assoc. reflexivity.
Qed.

(** What the loop appends, when it ends, are the entries of the preferred
    kind, in the order of the registry. *)
Lemma collect_selects installable items name b_inst result :
  collect pw ps installable items name b_inst = inr result ->
  exists more,
    result = (b_inst ++ more)%list
    /\ more.*1 = filter (fun item => Some item.2 = installable) items.
Proof.
  revert name b_inst.
  induction items as [|[file kind] rest IH]; intros name b_inst Hrun;
    simpl in Hrun.
  - injection Hrun as <-. exists []. rewrite app_nil_r. split; reflexivity.
  - destruct (decide (Some kind = installable)) as [Heq|Hne].
    + assert (Hstep : forall n,
                 collect pw ps installable rest n
                   (b_inst ++ [(file, kind, n)]) = inr result ->
                 exists more,
                   result = (b_inst ++ more)%list
                   /\ more.*1
                      = filter (fun item => Some item.2 = installable)
                          ((file, kind) :: rest)).
      { intros n Hn. apply IH in Hn as (more & -> & Hmore).
        exists ((file, kind, n) :: more). split.
        - rewrite <- app_assoc. reflexivity.
        - rewrite filter_cons_True by exact Heq.
          rewrite fmap_cons, Hmore. reflexivity. }
      destruct kind; eauto.
      * destruct (pw file) as [exn|[[[n' ?] ?] ?]];
          [discriminate Hrun | eauto].
      * destruct (ps file) as [exn|[n' ?]]; [discriminate Hrun | eauto].
    + apply IH in Hrun as (more & -> & Hmore). exists more.
      split; [reflexivity|]. rewrite filter_cons_False by exact Hne.
      exact Hmore.
Qed.

End InstallableLists.

(** No wheel, sdist or tree among the values: no preferred kind. *)
Lemma installable_kind_none (d : list (string * BuildType)) :
  (forall n kind, (n, kind) ∈ d -> kind = EGG \/ kind = FILE) ->
  installable_kind d = None.
Proof.
  intros Honly.
  assert (Hout : forall kind, kind <> EGG -> kind <> FILE ->
                   in_values kind d = false).
  { intros kind He Hf. unfold in_values. apply bool_decide_eq_false_2.
    intros Hin. apply list_elem_of_fmap in Hin as ([n k] & Hk & Hin).
    simpl in Hk. subst k. destruct (Honly n kind Hin); contradiction. }
  unfold installable_kind. rewrite !Hout by discriminate. reflexivity.
Qed.

(** The preferred kind is a wheel, an sdist or a tree, and a wheel when one
    is registered. *)
Lemma installable_kind_cases (d : list (string * BuildType)) kind :
  installable_kind d = Some kind ->
  kind <> EGG /\ kind <> FILE /\ (in_values WHEEL d = true -> kind = WHEEL).
Proof.
  unfold installable_kind.
  destruct (in_values WHEEL d).
  { intros Heq. injection Heq as <-. repeat split; discriminate || auto. }
  destruct (in_values SDIST d).
  { intros Heq. injection Heq as <-. repeat split; discriminate. }
  destruct (in_values TREE d); [|discriminate].
  intros Heq. injection Heq as <-. repeat split; discriminate.
Qed.

(** X8: when the registry holds no wheel, sdist or tree (it is empty, as
    after [clean_builds], or holds only eggs and plain files),
    [get_builds_installable] returns the "sources" entry alone, and does so
    whatever the file names are: no name is parsed. *)
Theorem get_builds_installable_sources_only pw ps self :
  (forall n kind, (n, kind) ∈ builds self -> kind = EGG \/ kind = FILE) ->
  get_builds_installable pw ps self = inr [(workdir self, TREE, "sources")].
Proof.
  intros Honly. unfold get_builds_installable.
  rewrite (installable_kind_none _ Honly). apply collect_none.
Qed.

Lemma get_builds_installable_sources_only_witness :
  get_builds_installable Packaging.parse_wheel_filename
    Packaging.parse_sdist_filename
    (sample_system (Some all_kinds_backend)
       [("old.egg", EGG); ("notes.txt", FILE)])
  = inr [(workdir (sample_system (Some all_kinds_backend)
                     [("old.egg", EGG); ("notes.txt", FILE)]),
          TREE, "sources")].
Proof.
  apply (get_builds_installable_sources_only Packaging.parse_wheel_filename
           Packaging.parse_sdist_filename
           (sample_system (Some all_kinds_backend)
              [("old.egg", EGG); ("notes.txt", FILE)])).
  intros n kind Hin. simpl in Hin.
  apply elem_of_cons in Hin as [Heq|Hin].
  - injection Heq as -> ->. left. reflexivity.
  - apply elem_of_cons in Hin as [Heq|Hin].
    + injection Heq as -> ->. right. reflexivity.
    + apply elem_of_nil in Hin. contradiction.
Defined.

(** X9: when every registered file of the preferred kind has a name that
    its parser accepts, [get_builds_installable] returns: the "sources"
    entry, then the entries of the preferred kind in the order of the
    registry, wheels and sdists under their parsed project name and trees
    under "Unknown". *)
Theorem get_builds_installable_returns pw ps self :
  (forall file kind,
     (file, kind) ∈ builds self ->
     installable_kind (builds self) = Some kind ->
     exists n, parse_name pw ps kind file = inr n) ->
  get_builds_installable pw ps self = inr (derive_installables pw ps self).
Proof.
  intros Hparse. unfold get_builds_installable, derive_installables.
  rewrite (collect_all_parse pw ps (installable_kind (builds self))
             (builds self) "Unknown" [(workdir self, TREE, "sources")]).
  - reflexivity.
  - intros file kind Hin Heq. apply (Hparse file kind Hin). symmetry. exact Heq.
  - reflexivity.
Qed.

Lemma get_builds_installable_returns_witness :
  get_builds_installable Packaging.parse_wheel_filename
    Packaging.parse_sdist_filename
    (sample_system (Some all_kinds_backend)
       [("notes.gz", SDIST); ("mypkg-1.0-py3-none-any.whl", WHEEL)])
  = inr (derive_installables Packaging.parse_wheel_filename
           Packaging.parse_sdist_filename
           (sample_system (Some all_kinds_backend)
              [("notes.gz", SDIST); ("mypkg-1.0-py3-none-any.whl", WHEEL)])).
Proof.
  apply (get_builds_installable_returns Packaging.parse_wheel_filename
           Packaging.parse_sdist_filename
           (sample_system (Some all_kinds_backend)
              [("notes.gz", SDIST); ("mypkg-1.0-py3-none-any.whl", WHEEL)])).
  intros file kind Hin Hkind. injection Hkind as <-. simpl in Hin.
  apply elem_of_cons in Hin as [Heq|Hin]; [discriminate Heq|].
  apply elem_of_cons in Hin as [Heq|Hin].
  - injection Heq as ->. exists "mypkg". reflexivity.
  - apply elem_of_nil in Hin. contradiction.
Defined.

(** X10: a list that [get_builds_installable] returns is the "sources"
    entry followed by exactly the registry's entries of the preferred kind,
    in the order of the registry. Eggs and plain files are never listed,
    and when a wheel is registered only wheels are. *)
Theorem get_builds_installable_selects pw ps self result :
  get_builds_installable pw ps self = inr result ->
  exists more,
    result = (workdir self, TREE, "sources") :: more
    /\ more.*1
       = filter (fun item => Some item.2 = installable_kind (builds self))
                (builds self)
    /\ (forall file kind n, (file, kind, n) ∈ more ->
          (file, kind) ∈ builds self
          /\ kind <> EGG /\ kind <> FILE
          /\ (in_values WHEEL (builds self) = true -> kind = WHEEL)).
Proof.
  unfold get_builds_installable. intros Hrun.
  apply collect_selects in Hrun as (more & -> & Hmore).
  exists more. split; [reflexivity|]. split; [exact Hmore|].
  intros file kind n Hin.
  assert (Hpair : (file, kind) ∈ more.*1).
  { apply list_elem_of_fmap. exists (file, kind, n). split; [reflexivity|exact Hin]. }
  rewrite Hmore in Hpair. apply list_elem_of_filter in Hpair as [Hkind Hreg].
  simpl in Hkind. split; [exact Hreg|].
  apply installable_kind_cases. symmetry. exact Hkind.
Qed.

Lemma get_builds_installable_selects_witness :
  exists more,
    [("/home/user/project", TREE, "sources");
     ("mypkg-1.0-py3-none-any.whl", WHEEL, "mypkg")]
    = (workdir (sample_system (Some all_kinds_backend)
                  [("notes.gz", SDIST); ("mypkg-1.0-py3-none-any.whl", WHEEL)]),
       TREE, "sources") :: more
    /\ more.*1 = [("mypkg-1.0-py3-none-any.whl", WHEEL)].
Proof.
  destruct (get_builds_installable_selects Packaging.parse_wheel_filename
              Packaging.parse_sdist_filename
              (sample_system (Some all_kinds_backend)
                 [("notes.gz", SDIST); ("mypkg-1.0-py3-none-any.whl", WHEEL)])
              [("/home/user/project", TREE, "sources");
               ("mypkg-1.0-py3-none-any.whl", WHEEL, "mypkg")] eq_refl)
    as (more & Hres & Hmore & _).
  exists more. split; [exact Hres | exact Hmore].
Defined.

(** ** Virtual environments *)

Lemma truthy_false_inv (s : option string) :
  truthy s = false -> s = None \/ s = Some "".
Proof.
  destruct s as [s|]; [|left; reflexivity]. unfold truthy.
  case_bool_decide as Hs; [subst s; right; reflexivity | discriminate].
Qed.

Lemma truthy_true_inv (s : option string) :
  truthy s = true -> exists value, s = Some value /\ value <> "".
Proof.
  destruct s as [s|]; [|discriminate]. unfold truthy.
  case_bool_decide as Hs; [discriminate|]. intros _. exists s. auto.
Qed.

(** X11: when neither the configuration nor the process environment gives a
    non-empty [VIRTUAL_ENV], [get_virtual_env] creates and updates nothing
    and prints nothing; what it returns is [None] or the empty string, never
    a path, and a build target made with it has no environment. *)
Theorem get_virtual_env_unset (pathlib : PathOps) self config_getenv
    os_environ_get :
  truthy config_getenv = false ->
  truthy os_environ_get = false ->
  exists value,
    get_virtual_env self config_getenv os_environ_get = (inr value, [])
    /\ (value = VenvNone \/ value = VenvStr "")
    /\ Target.venv_property value = None.
Proof.
  intros Hcfg Hos. unfold get_virtual_env. rewrite Hcfg, Hos. simpl.
  eexists. split; [reflexivity|].
  destruct (truthy_false_inv _ Hcfg) as [-> | ->].
  - split; [left|]; reflexivity.
  - split; [right|]; reflexivity.
Qed.

Lemma get_virtual_env_unset_witness :
  exists value,
    get_virtual_env (pathlib := sample_pathlib)
      (sample_system (Some all_kinds_backend) []) (Some "") None
    = (inr value, [])
    /\ (value = VenvNone \/ value = VenvStr "")
    /\ Target.venv_property (pathlib := sample_pathlib) value = None.
Proof.
  apply (get_virtual_env_unset sample_pathlib
           (sample_system (Some all_kinds_backend) []) (Some "") None);
    reflexivity.
Defined.

(** X12: when the configuration or the process environment gives a
    non-empty [VIRTUAL_ENV], [get_virtual_env] first asks whether the
    resolved path is a directory. If [is_dir()] raises, the exception
    escapes and nothing has been printed or created. If it returns,
    [EnvBuilder.create] is called exactly once, on that path and with pip,
    upgrading when the path is an existing directory and creating
    otherwise; the path is returned when [create] returns, and the
    exception of [create] escapes when it raises. *)
Theorem get_virtual_env_creates (pathlib : PathOps) self config_getenv
    os_environ_get :
  truthy config_getenv || truthy os_environ_get = true ->
  match is_dir (resolved_env self config_getenv os_environ_get) with
  | inl exn =>
      get_virtual_env self config_getenv os_environ_get = (inl exn, [])
  | inr directory =>
      exists line,
        get_virtual_env self config_getenv os_environ_get
        = (match create directory true
                   (resolved_env self config_getenv os_environ_get) with
           | Some exn => inl exn
           | None =>
               inr (VenvPath
                      (resolved_env self config_getenv os_environ_get))
           end,
           [Print line;
            EnvBuilder_create directory true
              (resolved_env self config_getenv os_environ_get)])
  end.
Proof.
  intros Hset. unfold get_virtual_env. rewrite Hset.
  destruct (is_dir (resolved_env self config_getenv os_environ_get))
    as [exn|[|]]; [reflexivity| |]; unfold build_env;
    eexists; destruct (create _ _ _); reflexivity.
Qed.

Lemma get_virtual_env_creates_witness :
  exists line,
    get_virtual_env (pathlib := sample_pathlib)
      (sample_system (Some all_kinds_backend) []) None (Some "setup.py")
    = (inl (ValueError "Unable to create directory"),
       [Print line;
        EnvBuilder_create false true
          (mkPath "/home/user/project" "setup.py" false)]).
Proof.
  apply (get_virtual_env_creates sample_pathlib
           (sample_system (Some all_kinds_backend) []) None
           (Some "setup.py")).
  reflexivity.
Defined.

(** A path that is not absolute is joined to the work directory. *)
Lemma resolved_env_of_value (pathlib : PathOps) self config_getenv
    os_environ_get value :
  value <> "" ->
  config_getenv = Some value
  \/ (truthy config_getenv = false /\ os_environ_get = Some value) ->
  truthy config_getenv || truthy os_environ_get = true
  /\ resolved_env self config_getenv os_environ_get
     = (if is_absolute (Path_ value) then Path_ value
        else joinpath (Path_ (workdir self)) (Path_ value)).
Proof.
  intros Hvalue Hfrom.
  assert (Hv : truthy (Some value) = true).
  { unfold truthy. rewrite bool_decide_eq_false_2 by exact Hvalue. reflexivity. }
  unfold resolved_env.
  destruct Hfrom as [-> | [Hcfg ->]].
  - rewrite Hv. simpl.
    split; [reflexivity|]. destruct (is_absolute (Path_ value)); reflexivity.
  - rewrite Hcfg, Hv. simpl.
    split; [reflexivity|]. destruct (is_absolute (Path_ value)); reflexivity.
Qed.

(** X13: the path returned is that of the configuration's [VIRTUAL_ENV]
    when it is non-empty, whatever the process environment holds, and that
    of the process environment otherwise; an absolute path is returned as
    it is and a relative one is joined to the work directory. That path
    is returned whenever [is_dir()] and [EnvBuilder.create] return on it,
    and it is the only path on which [EnvBuilder.create] is called, whether
    the call returns or not. *)
Theorem get_virtual_env_path (pathlib : PathOps) self config_getenv
    os_environ_get value :
  value <> "" ->
  config_getenv = Some value
  \/ (truthy config_getenv = false /\ os_environ_get = Some value) ->
  (forall returned,
      (get_virtual_env self config_getenv os_environ_get).1 = inr returned ->
      returned
      = VenvPath (if is_absolute (Path_ value) then Path_ value
                  else joinpath (Path_ (workdir self)) (Path_ value)))
  /\ (forall directory,
        is_dir (if is_absolute (Path_ value) then Path_ value
                else joinpath (Path_ (workdir self)) (Path_ value))
        = inr directory ->
        create directory true
          (if is_absolute (Path_ value) then Path_ value
           else joinpath (Path_ (workdir self)) (Path_ value)) = None ->
        (get_virtual_env self config_getenv os_environ_get).1
        = inr (VenvPath (if is_absolute (Path_ value) then Path_ value
                         else joinpath (Path_ (workdir self))
                                (Path_ value))))
  /\ (forall upgrade with_pip env_dir,
        EnvBuilder_create upgrade with_pip env_dir
        ∈ (get_virtual_env self config_getenv os_environ_get).2 ->
        env_dir = (if is_absolute (Path_ value) then Path_ value
                   else joinpath (Path_ (workdir self)) (Path_ value))).
Proof.
  intros Hvalue Hfrom.
  destruct (resolved_env_of_value pathlib self config_getenv os_environ_get
              value Hvalue Hfrom) as [Hset Hpath].
  unfold get_virtual_env. rewrite Hset, Hpath.
  set (env_dir := if is_absolute (Path_ value) then Path_ value
                  else joinpath (Path_ (workdir self)) (Path_ value)).
  assert (Hbuild : forall line upgrade,
             (forall returned,
                 (build_env line upgrade env_dir).1 = inr returned ->
                 returned = VenvPath env_dir)
             /\ (forall up pip dir,
                   EnvBuilder_create up pip dir
                   ∈ (build_env line upgrade env_dir).2 -> dir = env_dir)).
  { intros line upgrade. unfold build_env. split.
    - intros returned. destruct (create upgrade true env_dir);
        cbn [fst]; intros Heq; [discriminate Heq|].
      injection Heq as <-. reflexivity.
    - intros up pip dir Hin.
      assert (Hin' : EnvBuilder_create up pip dir
                     ∈ [Print (line ++ path_str (absolute env_dir));
                        EnvBuilder_create upgrade true env_dir]).
      { destruct (create upgrade true env_dir); exact Hin. }
      apply elem_of_cons in Hin' as [Heq|Hin']; [discriminate Heq|].
      apply elem_of_cons in Hin' as [Heq|Hin'].
      + injection Heq as _ _ ->. reflexivity.
      + apply elem_of_nil in Hin'. contradiction. }
  assert (Hreturns : forall line upgrade,
             create upgrade true env_dir = None ->
             (build_env line upgrade env_dir).1 = inr (VenvPath env_dir)).
  { intros line upgrade Hcreate. unfold build_env. rewrite Hcreate.
    reflexivity. }
  destruct (is_dir env_dir) as [exn|[|]].
  - split; [|split].
    + intros returned Heq. discriminate Heq.
    + intros directory Heq. discriminate Heq.
    + intros up pip dir Hin. apply elem_of_nil in Hin. contradiction.
  - split; [apply Hbuild|]. split; [|apply Hbuild].
    intros directory Heq. injection Heq as <-. apply Hreturns.
  - split; [apply Hbuild|]. split; [|apply Hbuild].
    intros directory Heq. injection Heq as <-. apply Hreturns.
Qed.

Lemma get_virtual_env_path_witness :
  VenvPath (mkPath "/home/user/project" ".venv" true)
  = VenvPath (if is_absolute (PathOps := sample_pathlib)
                   (Path_ (PathOps := sample_pathlib) ".venv")
              then Path_ (PathOps := sample_pathlib) ".venv"
              else joinpath (PathOps := sample_pathlib)
                     (Path_ (PathOps := sample_pathlib)
                        (workdir (sample_system (Some all_kinds_backend) [])))
                     (Path_ (PathOps := sample_pathlib) ".venv")).
Proof.
  apply (proj1 (get_virtual_env_path sample_pathlib
                  (sample_system (Some all_kinds_backend) [])
                  (Some ".venv") (Some "/opt/env") ".venv"
                  ltac:(discriminate) (or_introl eq_refl))
               (VenvPath (mkPath "/home/user/project" ".venv" true))).
  reflexivity.
Defined.

(** ** Build targets *)

(** X14: [do_get_argv] raises, with an [IndexError], exactly when the target
    has an environment and an empty [argv]. Otherwise the result is as long
    as [argv] and differs from it at most in its first token: without an
    environment it is [argv], with one the first token is prefixed with the
    environment's [bin] directory. *)
Theorem do_get_argv_rewrites (self : Target.Python517BuildTarget) :
  match Target.do_get_argv self with
  | inl _ => truthy (Target.virtual_env self) = true /\ Target.argv self = []
  | inr result =>
      length result = length (Target.argv self)
      /\ tail result = tail (Target.argv self)
      /\ (Target.argv self = [] -> truthy (Target.virtual_env self) = false)
      /\ (truthy (Target.virtual_env self) = false ->
          result = Target.argv self)
      /\ (forall venv first rest,
            Target.virtual_env self = Some venv -> venv <> "" ->
            Target.argv self = first :: rest ->
            result = (venv ++ "/bin/" ++ first) :: rest)
  end.
Proof.
  unfold Target.do_get_argv.
  destruct (truthy (Target.virtual_env self)) eqn:Hvenv.
  - destruct (Target.argv self) as [|first rest] eqn:Hargv.
    + split; reflexivity.
    + split; [reflexivity|]. split; [reflexivity|].
      split; [discriminate|]. split; [discriminate|].
      intros venv first' rest' Hv _ Heq. injection Heq as <- <-.
      rewrite Hv. reflexivity.
  - split; [reflexivity|]. split; [reflexivity|].
    split; [reflexivity|]. split; [reflexivity|].
    intros venv first rest Hv Hne _. rewrite Hv in Hvenv.
    unfold truthy in Hvenv.
    rewrite bool_decide_eq_false_2 in Hvenv by exact Hne. discriminate Hvenv.
Qed.

(** ** The target provider *)

Section ProviderFacts.

Context {pathlib : PathOps}.
Variable pw : string -> exception + wheel_fields.
Variable ps : string -> exception + sdist_fields.

(** The targets of one installable, by its kind. *)
Lemma elem_of_targets_of backend build_dir venv file kind n t :
  t ∈ targets_of backend build_dir venv (file, kind, n) ->
  (kind = SDIST
   /\ t = Target.__init__ n "wheel" 100
            (if has_isolation backend then VenvNone else venv)
            (get_wheel_cmd backend))
  \/ ((kind = SDIST \/ kind = WHEEL)
      /\ (t = Target.__init__ n "install" 200 venv
                ["python"; "-m"; "pip"; "install"; build_dir ++ "/" ++ file]
          \/ t = Target.__init__ n "uninstall" 400 venv
                   ["python"; "-m"; "pip"; "uninstall"; n]))
  \/ (kind = TREE
      /\ t = Target.__init__ n "install editable" 200 venv
               ["python"; "-m"; "pip"; "install"; "-e"; file]).
Proof.
  unfold targets_of. intros Hin.
  destruct kind; cbn in Hin;
    repeat (apply elem_of_cons in Hin as [->|Hin]);
    try (apply elem_of_nil in Hin; contradiction); auto 8.
Qed.

(** A task whose targets are set belongs to this build system, with a
    backend and an environment that was resolved, and its targets come from
    the installables in order. *)
Lemma targets_set_inv system config_getenv os_environ_get ts :
  targets (do_get_targets_async pw ps system config_getenv os_environ_get)
  = Some ts ->
  exists bs backend installables venv,
    system = Python517 bs
    /\ build_backend bs = Some backend
    /\ get_builds_installable pw ps bs = inr installables
    /\ (get_virtual_env bs config_getenv os_environ_get).1 = inr venv
    /\ ts = flat_map (targets_of backend (get_builddir_name backend) venv)
                     installables.
Proof.
  unfold do_get_targets_async.
  destruct system as [bs|]; [|discriminate].
  destruct (build_backend bs) as [backend|] eqn:Hb; [|discriminate].
  destruct (get_builds_installable pw ps bs) as [exn|installables] eqn:Hinst;
    [discriminate|].
  destruct (get_virtual_env bs config_getenv os_environ_get)
    as [[exn|venv] done] eqn:Hvenv; [discriminate|].
  cbn [targets fst]. intros Heq. injection Heq as <-.
  exists bs, backend, installables, venv.
  split; [reflexivity|]. split; [exact Hb|]. split; [exact Hinst|].
  rewrite Hvenv. split; reflexivity.
Qed.

End ProviderFacts.

(** X15: with a resolved backend and a registry whose names parse, what
    is done to the outside is what [get_virtual_env] does, and the task
    completes, with [True], exactly when [get_virtual_env] returns. Then
    the first target is the editable install of the work directory, named
    "sources", with priority 200 and the resolved environment. When
    [get_virtual_env] raises, the exception escapes: the task is not
    completed and no targets are set. *)
Theorem do_get_targets_async_succeeds (pathlib : PathOps) pw ps bs backend
    installables config_getenv os_environ_get :
  build_backend bs = Some backend ->
  get_builds_installable pw ps bs = inr installables ->
  let task :=
    do_get_targets_async pw ps (Python517 bs) config_getenv os_environ_get in
  effects task = (get_virtual_env bs config_getenv os_environ_get).2
  /\ match (get_virtual_env bs config_getenv os_environ_get).1 with
     | inr venv =>
         outcome task = Task_boolean true
         /\ exists rest,
              targets task
              = Some (Target.__init__ "sources" "install editable" 200 venv
                        ["python"; "-m"; "pip"; "install"; "-e"; workdir bs]
                      :: rest)
     | inl exn => outcome task = Uncaught exn /\ targets task = None
     end.
Proof.
  intros Hb Hinst. cbv zeta. unfold do_get_targets_async.
  rewrite Hb, Hinst.
  destruct (get_virtual_env bs config_getenv os_environ_get)
    as [[exn|venv] done]; cbn [outcome effects targets fst snd].
  - split; [reflexivity|]. split; reflexivity.
  - split; [reflexivity|]. split; [reflexivity|].
    unfold get_builds_installable in Hinst.
    apply collect_extends in Hinst as [more ->].
    eexists. cbn [app flat_map]. reflexivity.
Qed.

Lemma do_get_targets_async_succeeds_witness :
  let task :=
    do_get_targets_async (pathlib := sample_pathlib)
      Packaging.parse_wheel_filename Packaging.parse_sdist_filename
      (Python517 (sample_system (Some all_kinds_backend)
                    [("mypkg-1.0-py3-none-any.whl", WHEEL)]))
      (Some ".venv") None in
  effects task
  = [Print "Updating venv in /home/user/project/.venv";
     EnvBuilder_create true true (mkPath "/home/user/project" ".venv" true)]
  /\ outcome task = Task_boolean true
  /\ exists rest,
       targets task
       = Some (Target.mkTarget "sources" "install editable" 200
                 (Some "/home/user/project/.venv")
                 ["python"; "-m"; "pip"; "install"; "-e";
                  "/home/user/project"]
               :: rest).
Proof.
  apply (do_get_targets_async_succeeds sample_pathlib
           Packaging.parse_wheel_filename Packaging.parse_sdist_filename
           (sample_system (Some all_kinds_backend)
              [("mypkg-1.0-py3-none-any.whl", WHEEL)])
           all_kinds_backend
           [("/home/user/project", TREE, "sources");
            ("mypkg-1.0-py3-none-any.whl", WHEEL, "mypkg")]
           (Some ".venv") None eq_refl eq_refl).
Defined.

(** An environment that names a regular file: [EnvBuilder.create] raises,
    and the task for the targets is never completed. *)
Example env_on_regular_file :
  do_get_targets_async (pathlib := sample_pathlib)
    Packaging.parse_wheel_filename Packaging.parse_sdist_filename
    (Python517 (sample_system (Some all_kinds_backend) []))
    (Some "setup.py") None
  = mkTargetsTask (Uncaught (ValueError "Unable to create directory")) None
      [Print "Creating venv in /home/user/project/setup.py";
       EnvBuilder_create false true
         (mkPath "/home/user/project" "setup.py" false)].
Proof. reflexivity. Qed.

(** X16: every target that the provider sets carries the priority of its
    action: 100 for "wheel", 200 for "install" and "install editable", 400
    for "uninstall"; there is no other action. *)
Theorem do_get_targets_async_priorities (pathlib : PathOps) pw ps system
    config_getenv os_environ_get ts t :
  targets (do_get_targets_async pw ps system config_getenv os_environ_get)
  = Some ts ->
  t ∈ ts ->
  (Target.action t, Target.priority t)
  ∈ [("wheel", 100%Z); ("install", 200%Z); ("uninstall", 400%Z);
     ("install editable", 200%Z)].
Proof.
  intros Hset Hin.
  apply targets_set_inv in Hset
    as (bs & backend & installables & venv & _ & _ & _ & _ & ->).
  apply list_elem_of_In, in_flat_map in Hin as ([[file kind] n] & _ & Hin).
  apply list_elem_of_In, elem_of_targets_of in Hin
    as [[_ ->]|[[_ [-> | ->]]|[_ ->]]]; cbn [Target.__init__ Target.action
                                              Target.priority].
  - apply elem_of_cons. left. reflexivity.
  - apply elem_of_cons. right. apply elem_of_cons. left. reflexivity.
  - do 2 (apply elem_of_cons; right). apply elem_of_cons. left. reflexivity.
  - do 3 (apply elem_of_cons; right). apply elem_of_cons. left. reflexivity.
Qed.

(** X17: a "wheel" target is set only for sdists, and sdists are listed
    only when no wheel is registered: a task with a "wheel" target has a
    registry without wheels whose preferred kind is SDIST. The target runs
    the backend's wheel command; it has no environment when the backend
    builds in isolation, and the resolved one otherwise. *)
Theorem wheel_targets_from_sdists (pathlib : PathOps) pw ps bs backend
    config_getenv os_environ_get ts t :
  build_backend bs = Some backend ->
  targets (do_get_targets_async pw ps (Python517 bs) config_getenv
             os_environ_get) = Some ts ->
  t ∈ ts ->
  Target.action t = "wheel" ->
  installable_kind (builds bs) = Some SDIST
  /\ in_values WHEEL (builds bs) = false
  /\ Target.argv t = get_wheel_cmd backend
  /\ exists venv,
       (get_virtual_env bs config_getenv os_environ_get).1 = inr venv
       /\ Target.virtual_env t
          = if has_isolation backend then None
            else Target.venv_property venv.
Proof.
  intros Hb Hset Hin Haction.
  apply targets_set_inv in Hset
    as (bs' & backend' & installables & venv & Hsys & Hb' & Hinst & Hvenv
        & ->).
  injection Hsys as <-. rewrite Hb in Hb'. injection Hb' as <-.
  apply list_elem_of_In, in_flat_map in Hin as ([[file kind] n] & Hentry & Hin).
  apply list_elem_of_In in Hentry.
  apply list_elem_of_In, elem_of_targets_of in Hin
    as [[-> ->]|[[_ [-> | ->]]|[_ ->]]];
    try (cbn [Target.__init__ Target.action] in Haction;
         discriminate Haction).
  unfold get_builds_installable in Hinst.
  apply collect_selects in Hinst as (more & -> & Hmore).
  apply elem_of_cons in Hentry as [Heq|Hentry]; [discriminate Heq|].
  assert (Hpair : (file, SDIST) ∈ more.*1).
  { apply list_elem_of_fmap. exists (file, SDIST, n).
    split; [reflexivity | exact Hentry]. }
  rewrite Hmore in Hpair. apply list_elem_of_filter in Hpair as [Hkind _].
  simpl in Hkind. symmetry in Hkind.
  split; [exact Hkind|]. split.
  - unfold installable_kind in Hkind.
    destruct (in_values WHEEL (builds bs)); [discriminate Hkind | reflexivity].
  - split; [reflexivity|]. exists venv. split; [exact Hvenv|].
    cbn [Target.__init__ Target.virtual_env].
    destruct (has_isolation backend); reflexivity.
Qed.

Lemma wheel_targets_from_sdists_witness :
  installable_kind [("mypkg-1.0.tar.gz", SDIST)] = Some SDIST
  /\ in_values WHEEL [("mypkg-1.0.tar.gz", SDIST)] = false
  /\ ["python"; "-m"; "build"; "--wheel"] = get_wheel_cmd all_kinds_backend
  /\ exists venv,
       (get_virtual_env (pathlib := sample_pathlib)
          (sample_system (Some all_kinds_backend)
             [("mypkg-1.0.tar.gz", SDIST)]) None None).1 = inr venv
       /\ None = (if has_isolation all_kinds_backend then None
                  else Target.venv_property (pathlib := sample_pathlib) venv).
Proof.
  apply (wheel_targets_from_sdists sample_pathlib
           Packaging.parse_wheel_filename Packaging.parse_sdist_filename
           (sample_system (Some all_kinds_backend)
              [("mypkg-1.0.tar.gz", SDIST)])
           all_kinds_backend None None
           (flat_map (targets_of (pathlib := sample_pathlib) all_kinds_backend
                        "dist" VenvNone)
              [("/home/user/project", TREE, "sources");
               ("mypkg-1.0.tar.gz", SDIST, "mypkg")])
           (Target.mkTarget "mypkg" "wheel" 100 None
              ["python"; "-m"; "build"; "--wheel"])).
  - reflexivity.
  - reflexivity.
  - apply elem_of_cons. right. apply elem_of_cons. left. reflexivity.
  - reflexivity.
Defined.

(** X18: every target that the provider sets, other than a "wheel" one,
    runs [python]: its [argv] starts with that token, so [do_get_argv]
    never raises on it and gives the same tokens, the first one being
    [<environment>/bin/python] when the target has an environment. *)
Theorem provider_targets_run_python (pathlib : PathOps) pw ps system
    config_getenv os_environ_get ts t :
  targets (do_get_targets_async pw ps system config_getenv os_environ_get)
  = Some ts ->
  t ∈ ts ->
  Target.action t <> "wheel" ->
  exists rest,
    Target.argv t = "python" :: rest
    /\ Target.do_get_argv t
       = inr ((if truthy (Target.virtual_env t)
               then default "" (Target.virtual_env t) ++ "/bin/python"
               else "python") :: rest).
Proof.
  intros Hset Hin Haction.
  apply targets_set_inv in Hset
    as (bs & backend & installables & venv & _ & _ & _ & _ & ->).
  apply list_elem_of_In, in_flat_map in Hin as ([[file kind] n] & _ & Hin).
  apply list_elem_of_In, elem_of_targets_of in Hin
    as [[_ ->]|[[_ [-> | ->]]|[_ ->]]].
  - contradiction Haction. reflexivity.
  - eexists. split; [reflexivity|]. unfold Target.do_get_argv.
    cbn [Target.__init__ Target.argv Target.virtual_env].
    destruct (truthy _); reflexivity.
  - eexists. split; [reflexivity|]. unfold Target.do_get_argv.
    cbn [Target.__init__ Target.argv Target.virtual_env].
    destruct (truthy _); reflexivity.
  - eexists. split; [reflexivity|]. unfold Target.do_get_argv.
    cbn [Target.__init__ Target.argv Target.virtual_env].
    destruct (truthy _); reflexivity.
Qed.

Lemma provider_targets_run_python_witness :
  exists rest,
    ["python"; "-m"; "pip"; "uninstall"; "mypkg"] = "python" :: rest
    /\ Target.do_get_argv
         (Target.mkTarget "mypkg" "uninstall" 400
            (Some "/home/user/project/.venv")
            ["python"; "-m"; "pip"; "uninstall"; "mypkg"])
       = inr ("/home/user/project/.venv/bin/python" :: rest).
Proof.
  apply (provider_targets_run_python sample_pathlib
           Packaging.parse_wheel_filename Packaging.parse_sdist_filename
           (Python517 (sample_system (Some all_kinds_backend)
                         [("mypkg-1.0-py3-none-any.whl", WHEEL)]))
           (Some ".venv") None
           (flat_map (targets_of (pathlib := sample_pathlib) all_kinds_backend
                        "dist"
                        (VenvPath (mkPath "/home/user/project" ".venv" true)))
              [("/home/user/project", TREE, "sources");
               ("mypkg-1.0-py3-none-any.whl", WHEEL, "mypkg")])
           (Target.mkTarget "mypkg" "uninstall" 400
              (Some "/home/user/project/.venv")
              ["python"; "-m"; "pip"; "uninstall"; "mypkg"])).
  - reflexivity.
  - do 2 (apply elem_of_cons; right). apply elem_of_cons. left. reflexivity.
  - discriminate.
Defined.

(** X19: when the build system has no backend, or a registered file of the
    preferred kind has a name that its parser rejects, an exception escapes
    [do_get_targets_async]: the task is not completed, no targets are set,
    and no environment is created or updated. *)
Theorem do_get_targets_async_escapes (pathlib : PathOps) pw ps bs
    config_getenv os_environ_get :
  build_backend bs = None
  \/ (exists kind file exn,
        installable_kind (builds bs) = Some kind
        /\ (file, kind) ∈ builds bs
        /\ parse_name pw ps kind file = inl exn) ->
  exists exn,
    do_get_targets_async pw ps (Python517 bs) config_getenv os_environ_get
    = mkTargetsTask (Uncaught exn) None [].
Proof.
  intros [Hnone|(kind & file & exn & Hkind & Hin & Hfail)];
    unfold do_get_targets_async.
  - rewrite Hnone. eexists. reflexivity.
  - destruct (build_backend bs) as [backend|]; [|eexists; reflexivity].
    destruct (collect_raises pw ps kind file exn (builds bs) "Unknown"
                [(workdir bs, TREE, "sources")] Hin Hfail) as [exn' Hrun].
    unfold get_builds_installable. rewrite Hkind, Hrun.
    exists exn'. reflexivity.
Qed.

Lemma do_get_targets_async_escapes_witness :
  exists exn,
    do_get_targets_async (pathlib := sample_pathlib)
      Packaging.parse_wheel_filename Packaging.parse_sdist_filename
      (Python517 (sample_system (Some all_kinds_backend)
                    [("mypkg-1.0.tar", SDIST)]))
      (Some ".venv") None
    = mkTargetsTask (Uncaught exn) None [].
Proof.
  apply (do_get_targets_async_escapes sample_pathlib
           Packaging.parse_wheel_filename Packaging.parse_sdist_filename
           (sample_system (Some all_kinds_backend) [("mypkg-1.0.tar", SDIST)])
           (Some ".venv") None).
  right. exists SDIST, "mypkg-1.0.tar", (InvalidSdistFilename "mypkg-1.0.tar").
  split; [reflexivity|]. split; [|reflexivity].
  apply elem_of_cons. left. reflexivity.
Defined.

Lemma do_get_targets_async_priorities_witness :
  (Target.action
     (Target.mkTarget "mypkg" "uninstall" 400 None
        ["python"; "-m"; "pip"; "uninstall"; "mypkg"]),
   Target.priority
     (Target.mkTarget "mypkg" "uninstall" 400 None
        ["python"; "-m"; "pip"; "uninstall"; "mypkg"]))
  ∈ [("wheel", 100%Z); ("install", 200%Z); ("uninstall", 400%Z);
     ("install editable", 200%Z)].
Proof.
  apply (do_get_targets_async_priorities sample_pathlib
           Packaging.parse_wheel_filename Packaging.parse_sdist_filename
           (Python517 (sample_system (Some all_kinds_backend)
                         [("mypkg-1.0-py3-none-any.whl", WHEEL)]))
           None None
           (flat_map (targets_of (pathlib := sample_pathlib) all_kinds_backend
                        "dist" VenvNone)
              [("/home/user/project", TREE, "sources");
               ("mypkg-1.0-py3-none-any.whl", WHEEL, "mypkg")])).
  - reflexivity.
  - do 2 (apply elem_of_cons; right). apply elem_of_cons. left. reflexivity.
Defined.

(** ** From registration to installables *)

Lemma elem_of_dict_set_new {V} (d : list (string * V)) key value :
  (key, value) ∈ dict_set d key value.
Proof.
  induction d as [|[k v] rest IH]; simpl.
  - apply elem_of_cons. left. reflexivity.
  - destruct (decide (k = key)); apply elem_of_cons;
      [left; reflexivity | right; exact IH].
Qed.

(** Storing an sdist in a registry without wheels makes SDIST the
    preferred kind. *)
Lemma installable_kind_after_sdist (d : list (string * BuildType)) key :
  in_values WHEEL d = false ->
  installable_kind (dict_set d key SDIST) = Some SDIST.
Proof.
  intros Hnowheel. unfold installable_kind.
  assert (Hw : in_values WHEEL (dict_set d key SDIST) = false).
  { unfold in_values in *. apply bool_decide_eq_false_2. intros Hin.
    apply list_elem_of_fmap in Hin as ([n k] & Hk & Hin). simpl in Hk. subst k.
    apply elem_of_dict_set in Hin as [Heq|Hin]; [discriminate Heq|].
    apply bool_decide_eq_false_1 in Hnowheel. apply Hnowheel.
    apply list_elem_of_fmap. exists (n, WHEEL). split; [reflexivity | exact Hin]. }
  assert (Hs : in_values SDIST (dict_set d key SDIST) = true).
  { unfold in_values. apply bool_decide_eq_true_2.
    apply list_elem_of_fmap. exists (key, SDIST).
    split; [reflexivity | apply elem_of_dict_set_new]. }
  rewrite Hw, Hs. reflexivity.
Qed.

(** X20: [add_build] takes every file named [stem.gz], [stem.tar] or
    [stem.zip] as an sdist without looking further at its name. When
    [parse_sdist_filename] rejects that name, as it does for one that ends
    in neither [.tar.gz] nor [.zip], and no wheel is registered, the
    registration succeeds and [get_builds_installable] raises on the
    registry it leaves. *)
Theorem unparsable_sdist_registered pw ps self backend dir stem ext exn :
  build_backend self = Some backend ->
  supports backend SDIST = true ->
  stem <> "" ->
  ext ∈ ["gz"; "tar"; "zip"] ->
  in_values WHEEL (builds self) = false ->
  ps (stem ++ "." ++ ext) = inl exn ->
  exists self',
    add_build self (mkPath dir (stem ++ "." ++ ext) false) = inr self'
    /\ dict_get (builds self') (stem ++ "." ++ ext) = Some SDIST
    /\ exists exn', get_builds_installable pw ps self' = inl exn'.
Proof.
  intros Hb Hsup Hstem Hext Hnowheel Hreject.
  assert (Hcls : classify (mkPath dir (stem ++ "." ++ ext) false) = SDIST).
  { unfold classify. cbn [is_dir].
    repeat (apply elem_of_cons in Hext as [->|Hext];
            [rewrite (suffix_of_extension dir stem _ false Hstem)
               by (try discriminate; reflexivity);
             reflexivity|]).
    apply elem_of_nil in Hext. contradiction. }
  rewrite (add_build_accepted self backend
             (mkPath dir (stem ++ "." ++ ext) false) false Hb eq_refl).
  rewrite accepted_kind_classified by (rewrite Hcls; exact Hsup).
  rewrite Hcls. eexists. split; [reflexivity|].
  unfold get_builds_installable, set_builds. cbn [builds workdir name].
  split; [apply dict_get_set_eq|].
  rewrite (installable_kind_after_sdist _ _ Hnowheel).
  apply (collect_raises pw ps SDIST (stem ++ "." ++ ext) exn).
  - apply elem_of_dict_set_new.
  - simpl. rewrite Hreject. reflexivity.
Qed.

Lemma unparsable_sdist_registered_witness :
  exists self',
    add_build (sample_system (Some all_kinds_backend) [("old.egg", EGG)])
              (mkPath "dist" ("mypkg-1.0" ++ "." ++ "tar") false) = inr self'
    /\ dict_get (builds self') ("mypkg-1.0" ++ "." ++ "tar") = Some SDIST
    /\ exists exn',
         get_builds_installable Packaging.parse_wheel_filename
           Packaging.parse_sdist_filename self' = inl exn'.
Proof.
  apply (unparsable_sdist_registered Packaging.parse_wheel_filename
           Packaging.parse_sdist_filename
           (sample_system (Some all_kinds_backend) [("old.egg", EGG)])
           all_kinds_backend "dist" "mypkg-1.0" "tar"
           (InvalidSdistFilename "mypkg-1.0.tar")).
  - reflexivity.
  - reflexivity.
  - discriminate.
  - apply elem_of_cons. right. apply elem_of_cons. left. reflexivity.
  - reflexivity.
  - reflexivity.
Defined.
